(** * zipline.modelling.filter: the Filter algebra

    A shallow embedding of [zipline/modelling/filter.py]: the operator
    dispatch routine [binary_operator], [Filter.then], and the three
    concrete filters [NumExprFilter], [PercentileFilter] and
    [SequencedFilter] with their construction hooks and their
    [compute_from_arrays] methods.

    Python values are a tagged union [pyobj]; exceptions are values of
    [exn]; node construction threads the term cache and array code threads
    a store of numpy arrays, both through one state-and-exception monad. *)

From Stdlib Require Import ZArith QArith Qround String List Bool Lia.
From Stdlib Require Import DecimalString DecimalZ DecimalPos.
From stdpp Require Import base option list strings.
Import ListNotations.

Set Default Proof Using "Type".
Set Warnings "-register-all".

(** ** Floating point values

    The module never does arithmetic on floats itself: it stores [nan],
    and it compares.  A float64 is therefore represented by the number it
    denotes (every finite double is a rational), or one of the three
    special values.  Comparisons follow IEEE 754: any comparison with
    [NaN] is false. *)

Inductive float64 : Type :=
| Finite (q : Q)
| PosInf
| NegInf
| NaN.

Definition nan : float64 := NaN.

Definition float_of_Z (z : Z) : float64 := Finite (inject_Z z).

(** [a <= b] on floats. *)
Definition float_le (a b : float64) : bool :=
  match a, b with
  | NaN, _ | _, NaN => false
  | NegInf, _ => true
  | _, PosInf => true
  | Finite x, Finite y => Qle_bool x y
  | PosInf, _ => false
  | Finite _, NegInf => false
  end.

(** [a < b] on floats. *)
Definition float_lt (a b : float64) : bool :=
  match a, b with
  | NaN, _ | _, NaN => false
  | PosInf, _ => false
  | _, NegInf => false
  | Finite x, Finite y => negb (Qle_bool y x)
  | NegInf, _ => true
  | Finite _, PosInf => true
  end.

Definition isnan (a : float64) : bool :=
  match a with NaN => true | _ => false end.

(** Same representation (used for node identity, below). *)
Definition float64_eqb (a b : float64) : bool :=
  match a, b with
  | Finite x, Finite y => Z.eqb (Qnum x) (Qnum y) && Pos.eqb (Qden x) (Qden y)
  | PosInf, PosInf | NegInf, NegInf | NaN, NaN => true
  | _, _ => false
  end.

(** ** Python objects *)

(** A class defined outside this module (a Factor, a user Filter, a
    subclass of [TestingFilter], ...): its name and which of the two base
    classes tested by [isinstance] in this module it derives from. *)
Record pyclass : Type := {
  cls_name : string;
  cls_is_Filter : bool;
  cls_is_NumericalExpression : bool
}.

(** The values the module handles.  The last four constructors are Term
    instances; each stores the fields its [_init] sets. *)
Inductive pyobj : Type :=
| PyNone
| PyBool (b : bool)
| PyInt (z : Z)
| PyFloat (x : float64)
| PyStr (s : string)
| UserTerm (cls : pyclass) (inputs : list pyobj)
| NumExprFilter (expr : string) (inputs : list pyobj)
| PercentileFilter (inputs : list pyobj) (min_percentile max_percentile : float64)
| SequencedFilter (inputs : list pyobj) (then_ : pyobj).

(** The classes named in [isinstance] tests. *)
Inductive pytype : Type := Term | Filter | NumericalExpression | int.

Definition isinstance (o : pyobj) (t : pytype) : bool :=
  match t, o with
  | Term, (UserTerm _ _ | NumExprFilter _ _ | PercentileFilter _ _ _
            | SequencedFilter _ _) => true
  | Filter, UserTerm c _ => cls_is_Filter c
  | Filter, (NumExprFilter _ _ | PercentileFilter _ _ _ | SequencedFilter _ _) => true
  | NumericalExpression, UserTerm c _ => cls_is_NumericalExpression c
  | NumericalExpression, NumExprFilter _ _ => true
  | int, (PyInt _ | PyBool _) => true
  | _, _ => false
  end.

(** [type(o).__name__] *)
Definition type_name (o : pyobj) : string :=
  match o with
  | PyNone => "NoneType"
  | PyBool _ => "bool"
  | PyInt _ => "int"
  | PyFloat _ => "float"
  | PyStr _ => "str"
  | UserTerm c _ => cls_name c
  | NumExprFilter _ _ => "NumExprFilter"
  | PercentileFilter _ _ _ => "PercentileFilter"
  | SequencedFilter _ _ => "SequencedFilter"
  end.

(** [int(o)] for the objects that pass [isinstance(o, int)]. *)
Definition int_of (o : pyobj) : Z :=
  match o with
  | PyInt z => z
  | PyBool b => if b then 1%Z else 0%Z
  | _ => 0%Z
  end.

(** [str(z)] / the [{constant}] field of [str.format] for an integer. *)
Definition str_of_int (z : Z) : string := NilZero.string_of_int (Z.to_int z).

(** ** Exceptions and the monad *)

Inductive exn : Type :=
| BadBinaryOperator (op : string) (self other : pyobj)
| BadPercentileBounds (min_percentile max_percentile : float64)
| TypeError (msg : string)
| AttributeError (msg : string)
| IndexError (msg : string)
| ValueError (msg : string).

Inductive result (A : Type) : Type :=
| Ok (a : A)
| Raise (e : exn).
Arguments Ok {A} a.
Arguments Raise {A} e.

(** A computation over a state [S] that may raise. *)
Definition st (S A : Type) : Type := S -> result A * S.

Definition ret {S A} (a : A) : st S A := fun s => (Ok a, s).
Definition raise {S A} (e : exn) : st S A := fun s => (Raise e, s).
Definition lift {S A} (r : result A) : st S A := fun s => (r, s).
Definition bind {S A B} (m : st S A) (k : A -> st S B) : st S B :=
  fun s => match m s with
           | (Ok a, s') => k a s'
           | (Raise e, s') => (Raise e, s')
           end.

Declare Scope st_scope.
Delimit Scope st_scope with st.
Notation "'let!' x ':=' m 'in' k" := (bind m (fun x => k))
  (at level 10, x pattern, m at level 100, k at level 200) : st_scope.
Notation "m ';;' k" := (bind m (fun _ => k))
  (at level 100, k at level 200, right associativity) : st_scope.
Open Scope st_scope.

(** ** Tuples *)

(** [t[i]] *)
Definition getitem {S A} (t : list A) (i : nat) : st S A :=
  match t !! i with
  | Some a => ret a
  | None => raise (IndexError "tuple index out of range")
  end.

(** [o.inputs] *)
Definition getattr_inputs (o : pyobj) : result (list pyobj) :=
  match o with
  | UserTerm _ inputs | NumExprFilter _ inputs | PercentileFilter inputs _ _
  | SequencedFilter inputs _ => Ok inputs
  | _ => Raise (AttributeError
                  ("'" +:+ type_name o +:+ "' object has no attribute 'inputs'"))
  end.

(** [concat_tuples]: concatenate a sequence of tuples into one tuple
    ([tuple(chain(...))] over the argument tuples). *)
Definition concat_tuples {A} (tuples : list (list A)) : list A := concat tuples.

(** ** Node identity and the term cache *)

Definition all2 {A B} (f : A -> B -> bool) : list A -> list B -> bool :=
  fix go xs ys :=
    match xs, ys with
    | [], [] => true
    | x :: xs', y :: ys' => f x y && go xs' ys'
    | _, _ => false
    end.

Definition pyclass_eqb (c d : pyclass) : bool :=
  String.eqb (cls_name c) (cls_name d)
  && Bool.eqb (cls_is_Filter c) (cls_is_Filter d)
  && Bool.eqb (cls_is_NumericalExpression c) (cls_is_NumericalExpression d).

(** Modelled from the spec: the node interning of [Term.__new__]
    (zipline.modelling.term).  Nodes are interned by their static identity,
    and the static identities of this module ([PercentileFilter.static_identity],
    [SequencedFilter.static_identity], both extending the base identity of
    class and inputs) cover every stored field; two references are the same
    instance exactly when class and fields agree.  [a is b]: *)
Fixpoint is_ (a b : pyobj) {struct a} : bool :=
  match a, b with
  | PyNone, PyNone => true
  | PyBool x, PyBool y => Bool.eqb x y
  | PyInt x, PyInt y => Z.eqb x y
  | PyFloat x, PyFloat y => float64_eqb x y
  | PyStr x, PyStr y => String.eqb x y
  | UserTerm c xs, UserTerm d ys => pyclass_eqb c d && all2 is_ xs ys
  | NumExprFilter e xs, NumExprFilter f ys => String.eqb e f && all2 is_ xs ys
  | PercentileFilter xs lo hi, PercentileFilter ys lo' hi' =>
      all2 is_ xs ys && float64_eqb lo lo' && float64_eqb hi hi'
  | SequencedFilter xs t, SequencedFilter ys t' => all2 is_ xs ys && is_ t t'
  | _, _ => false
  end.

(** The term cache: the interned nodes. *)
Abbreviation term_cache := (list pyobj) (only parsing).

(** Modelled from the spec: [Term.__new__] (zipline.modelling.term).  The
    arguments are normalised to an identity and the cache is consulted; a
    hit returns the interned instance.  Otherwise the new instance is
    initialised ([self] is the instance after [_init]) and validated;
    raising in validation aborts construction, and only a validated
    instance is interned. *)
Definition Term_new (self : pyobj) (_validate : pyobj -> result unit)
  : st term_cache pyobj :=
  fun cache =>
    match find (is_ self) cache with
    | Some cached => (Ok cached, cache)
    | None =>
        match _validate self with
        | Ok _ => (Ok self, self :: cache)
        | Raise e => (Raise e, cache)
        end
    end.

(** Modelled from the spec: [Term._validate], the end of the validation
    hook chain; the spec gives it no failure for a node with inputs. *)
Definition Term_validate (self : pyobj) : result unit := Ok tt.

(** Modelled from the spec: [SingleInputMixin._validate], the capability
    contract "has exactly one declared input". *)
Definition SingleInputMixin_validate (self : pyobj) : result unit :=
  match getattr_inputs self with
  | Ok inputs =>
      if Nat.eqb (length inputs) 1 then Term_validate self
      else Raise (ValueError "expected exactly one input")
  | Raise e => Raise e
  end.

(** Modelled from the spec: [NumericalExpression.__new__]
    (zipline.modelling.expression) wraps an expression string and a tuple
    of bound inputs; the spec gives its construction no failure mode.
    [NumExprFilter(expr, binds)]: *)
Definition NumExprFilter_new (expr : string) (binds : list pyobj)
  : st term_cache pyobj :=
  Term_new (NumExprFilter expr binds) Term_validate.

(** ** PercentileFilter: construction *)

(** [PercentileFilter._init] *)
Definition PercentileFilter_init (min_percentile max_percentile : float64)
    (inputs : list pyobj) : pyobj :=
  PercentileFilter inputs min_percentile max_percentile.

(** [PercentileFilter._validate]:
    [if not 0.0 <= self._min_percentile < self._max_percentile <= 100.0: raise ...] *)
Definition PercentileFilter_validate (self : pyobj) : result unit :=
  match self with
  | PercentileFilter _ _min_percentile _max_percentile =>
      if negb (float_le (float_of_Z 0) _min_percentile
               && float_lt _min_percentile _max_percentile
               && float_le _max_percentile (float_of_Z 100))
      then Raise (BadPercentileBounds _min_percentile _max_percentile)
      else SingleInputMixin_validate self
  | _ => Raise (AttributeError "_min_percentile")
  end.

(** [PercentileFilter.__new__(cls, factor, min_percentile, max_percentile)] *)
Definition PercentileFilter_new (factor : pyobj)
    (min_percentile max_percentile : float64) : st term_cache pyobj :=
  Term_new (PercentileFilter_init min_percentile max_percentile [factor])
           PercentileFilter_validate.

(** ** SequencedFilter: construction *)

(** [SequencedFilter._init] *)
Definition SequencedFilter_init (then_ : pyobj) (inputs : list pyobj) : pyobj :=
  SequencedFilter inputs then_.

(** [SequencedFilter._validate] *)
Definition SequencedFilter_validate (self : pyobj) : result unit :=
  match self with
  | SequencedFilter inputs _then =>
      match inputs !! 0%nat with
      | None => Raise (IndexError "tuple index out of range")
      | Some first =>
          if negb (isinstance first Filter) then
            Raise (TypeError ("Expected Filter, got " +:+ type_name first))
          else if negb (isinstance _then Filter) then
            Raise (TypeError ("Expected Filter, got " +:+ type_name _then))
          else Term_validate self
      end
  | _ => Raise (AttributeError "_then")
  end.

(** [SequencedFilter.__new__(cls, first, then)]: the inputs are
    [concat_tuples((first,), then.inputs)], evaluated before the base
    constructor is entered. *)
Definition SequencedFilter_new (first then_ : pyobj) : st term_cache pyobj :=
  let! then_inputs := lift (getattr_inputs then_) in
  Term_new (SequencedFilter_init then_ (concat_tuples [[first]; then_inputs]))
           SequencedFilter_validate.

(** [Filter.then] *)
Definition Filter_then (self other : pyobj) : st term_cache pyobj :=
  SequencedFilter_new self other.

(** ** Arrays and the store *)

Abbreviation matrix A := (list (list A)) (only parsing).

(** A two-dimensional numpy array, row-major, of dtype bool or float64.
    A boolean DataFrame (the mask) is represented by its block of values. *)
Inductive ndarray : Type :=
| BoolArray (a : matrix bool)
| FloatArray (a : matrix float64).

Definition shape {A} (a : matrix A) : nat * nat :=
  (length a, match a with [] => 0%nat | r :: _ => length r end).

Definition ndarray_shape (a : ndarray) : nat * nat :=
  match a with BoolArray x => shape x | FloatArray x => shape x end.

(** Element [(i, j)]. *)
Definition get {A} (a : matrix A) (i j : nat) : option A :=
  match a !! i with Some r => r !! j | None => None end.

Definition same_shape {A B} (a : matrix A) (b : matrix B) : bool :=
  all2 (fun r s => Nat.eqb (length r) (length s)) a b.

(** The store of arrays; a reference is an index into it. *)
Abbreviation loc := nat (only parsing).
Abbreviation heap := (list ndarray) (only parsing).

Definition load (l : loc) : st heap ndarray :=
  fun h => match h !! l with
           | Some a => (Ok a, h)
           | None => (Raise (ValueError "no such array"), h)
           end.

Definition alloc (a : ndarray) : st heap loc :=
  fun h => (Ok (length h), h ++ [a]).

Definition store (l : loc) (a : ndarray) : st heap unit :=
  fun h => (Ok tt, <[l := a]> h).

Fixpoint load_all (ls : list loc) : st heap (list ndarray) :=
  match ls with
  | [] => ret []
  | l :: ls' =>
      let! a := load l in
      let! rest := load_all ls' in
      ret (a :: rest)
  end.

(** ** numpy operations on array values *)

Fixpoint sequence {A} (rs : list (result A)) : result (list A) :=
  match rs with
  | [] => Ok []
  | Ok a :: rs' =>
      match sequence rs' with
      | Ok l => Ok (a :: l)
      | Raise e => Raise e
      end
  | Raise e :: _ => Raise e
  end.

Definition result_map {A B} (f : A -> B) (r : result A) : result B :=
  match r with Ok a => Ok (f a) | Raise e => Raise e end.

(** Broadcasting of a binary ufunc along one row: equal lengths pair up,
    a length-one operand is stretched. *)
Definition broadcast_row {A B C} (f : A -> B -> C) (r : list A) (s : list B)
  : result (list C) :=
  if Nat.eqb (length r) (length s) then Ok (zip_with f r s)
  else match r, s with
       | [x], _ => Ok (map (f x) s)
       | _, [y] => Ok (map (fun x => f x y) r)
       | _, _ => Raise (ValueError "operands could not be broadcast together")
       end.

(** Broadcasting of a binary ufunc over two 2-D arrays. *)
Definition broadcast {A B C} (f : A -> B -> C) (a : matrix A) (b : matrix B)
  : result (matrix C) :=
  if Nat.eqb (length a) (length b) then sequence (zip_with (broadcast_row f) a b)
  else match a, b with
       | [r], _ => sequence (map (broadcast_row f r) b)
       | _, [s] => sequence (map (fun r => broadcast_row f r s) a)
       | _, _ => Raise (ValueError "operands could not be broadcast together")
       end.

Definition float_of_bool (b : bool) : float64 :=
  if b then float_of_Z 1 else float_of_Z 0.

Definition as_float (a : ndarray) : matrix float64 :=
  match a with
  | FloatArray x => x
  | BoolArray x => map (map float_of_bool) x
  end.

(** [a.astype(float64)]: always a new array. *)
Definition np_astype_float64 (a : ndarray) : result ndarray :=
  Ok (FloatArray (as_float a)).

(** [~a] *)
Definition np_invert (a : ndarray) : result ndarray :=
  match a with
  | BoolArray x => Ok (BoolArray (map (map negb) x))
  | FloatArray _ => Raise (TypeError "ufunc 'invert' not supported for the input types")
  end.

(** [a & b] *)
Definition np_and (a b : ndarray) : result ndarray :=
  match a, b with
  | BoolArray x, BoolArray y => result_map BoolArray (broadcast andb x y)
  | _, _ => Raise (TypeError "ufunc 'bitwise_and' not supported for the input types")
  end.

(** [a <= b] *)
Definition np_less_equal (a b : ndarray) : result ndarray :=
  result_map BoolArray (broadcast float_le (as_float a) (as_float b)).

(** The array [data] after [data[idx] = v] with a boolean index array. *)
Definition np_putmask (v : float64) (data idx : ndarray) : result ndarray :=
  match data, idx with
  | FloatArray d, BoolArray i =>
      if same_shape d i then
        Ok (FloatArray (zip_with (zip_with (fun x (b : bool) => if b then v else x)) d i))
      else Raise (IndexError "boolean index did not match indexed array")
  | _, _ => Raise (IndexError "arrays used as indices must be of boolean type")
  end.

(** The array has no column (the empty list of rows is the 0 x 0 array,
    as [shape] has it). *)
Definition zero_columns (a : ndarray) : bool := Nat.eqb (snd (ndarray_shape a)) 0.

(** [frame.values]: the block of values of the frame.  A frame without
    columns has no block, and pandas then builds an empty float64 array
    of the frame's shape. *)
Definition np_values (frame : ndarray) : ndarray :=
  if zero_columns frame then FloatArray (as_float frame) else frame.

(** ** External collaborators

    What the module calls but does not define: the operator tables and the
    input merging of zipline.modelling.expression, methods of objects of
    other classes, the numexpr evaluator, numpy's row-wise NaN-ignoring
    percentile, and the [compute_from_arrays] of classes defined elsewhere. *)
Class Externals : Type := {
  FILTER_BINOPS : list string;
  (** [method_name_for_op(op, commute)] *)
  method_name_for_op : string -> bool -> string;
  (** [self.build_binary_op(op, other)] of a NumericalExpression [self] *)
  build_binary_op : pyobj -> string -> pyobj -> result (string * string * list pyobj);
  (** [getattr(o, name)(arg)] *)
  call_method : pyobj -> string -> pyobj -> st term_cache pyobj;
  (** [numexpr.evaluate(expr, local_dict)] into a boolean buffer of the
      given shape; [local_dict] binds [x_i] to the [i]-th array *)
  numexpr_evaluate : string -> list ndarray -> nat * nat -> result (matrix bool);
  (** [nanpercentile] of one row at percentile [q] *)
  nanpercentile_row : list float64 -> float64 -> float64;
  (** [compute_from_arrays] of an instance of a class defined elsewhere *)
  user_compute_from_arrays : pyclass -> list pyobj -> list loc -> loc -> st heap loc
}.

Section Model.
Context {ext : Externals}.

(** [nanpercentile(data, q, axis=1, keepdims=True)]: one bound per row,
    kept as a column. *)
Definition np_nanpercentile (q : float64) (data : ndarray) : result ndarray :=
  Ok (FloatArray (map (fun row => [nanpercentile_row row q]) (as_float data))).

(** ** numpy operations on references *)

Definition unop (f : ndarray -> result ndarray) (a : loc) : st heap loc :=
  let! x := load a in
  let! r := lift (f x) in
  alloc r.

Definition binop (f : ndarray -> ndarray -> result ndarray) (a b : loc)
  : st heap loc :=
  let! x := load a in
  let! y := load b in
  let! r := lift (f x y) in
  alloc r.

Definition astype_float64 : loc -> st heap loc := unop np_astype_float64.
Definition invert : loc -> st heap loc := unop np_invert.
Definition and_ : loc -> loc -> st heap loc := binop np_and.
Definition less_equal : loc -> loc -> st heap loc := binop np_less_equal.
Definition nanpercentile (data : loc) (q : float64) : st heap loc :=
  unop (np_nanpercentile q) data.

(** [mask.values]: the block of values of the frame, not a copy; for a
    frame without columns a new, empty float64 array. *)
Definition values (mask : loc) : st heap loc :=
  let! frame := load mask in
  if zero_columns frame then alloc (np_values frame) else ret mask.

(** [data[idx] = v]: writes into [data] in place. *)
Definition setitem (data idx : loc) (v : float64) : st heap unit :=
  let! d := load data in
  let! i := load idx in
  let! r := lift (np_putmask v d i) in
  store data r.

(** ** compute_from_arrays *)

(** Modelled from the spec: [NumericalExpression.compute_from_arrays]
    (zipline.modelling.expression) evaluates the bound expression over the
    input arrays with the external vectorized evaluator and returns the raw
    boolean array, a new array of the mask's shape. *)
Definition NumericalExpression_compute_from_arrays (self : pyobj)
    (arrays : list loc) (mask : loc) : st heap loc :=
  match self with
  | NumExprFilter _expr _ =>
      let! local_dict := load_all arrays in
      let! m := load mask in
      let! out := lift (numexpr_evaluate _expr local_dict (ndarray_shape m)) in
      alloc (BoolArray out)
  | _ => raise (AttributeError "_expr")
  end.

(** [NumExprFilter.compute_from_arrays] *)
Definition NumExprFilter_compute_from_arrays (self : pyobj)
    (arrays : list loc) (mask : loc) : st heap loc :=
  let! numexpr_result := NumericalExpression_compute_from_arrays self arrays mask in
  and_ numexpr_result mask.

(** [PercentileFilter.compute_from_arrays] *)
Definition PercentileFilter_compute_from_arrays
    (_min_percentile _max_percentile : float64)
    (arrays : list loc) (mask : loc) : st heap loc :=
  let! a0 := getitem arrays 0 in
  let! data := astype_float64 a0 in
  let! mask_values := values mask in
  let! idx := invert mask_values in
  setitem data idx nan ;;
  let! lower_bounds := nanpercentile data _min_percentile in
  let! upper_bounds := nanpercentile data _max_percentile in
  let! below := less_equal lower_bounds data in
  let! above := less_equal data upper_bounds in
  and_ below above.

(** [SequencedFilter.compute_from_arrays]; [then_compute_from_arrays] is
    the bound method [self._then.compute_from_arrays]. *)
Definition SequencedFilter_compute_from_arrays
    (then_compute_from_arrays : list loc -> loc -> st heap loc)
    (arrays : list loc) (mask : loc) : st heap loc :=
  let! first_result := getitem arrays 0 in
  let then_inputs := drop 1 arrays in
  let! narrowed := and_ mask first_result in
  then_compute_from_arrays then_inputs narrowed.

(** Method resolution of [self.compute_from_arrays]. *)
Fixpoint compute_from_arrays (self : pyobj) (arrays : list loc) (mask : loc)
  : st heap loc :=
  match self with
  | NumExprFilter _ _ => NumExprFilter_compute_from_arrays self arrays mask
  | PercentileFilter _ lo hi => PercentileFilter_compute_from_arrays lo hi arrays mask
  | SequencedFilter _ _then =>
      SequencedFilter_compute_from_arrays (compute_from_arrays _then) arrays mask
  | UserTerm cls inputs => user_compute_from_arrays cls inputs arrays mask
  | _ => raise (AttributeError
                  ("'" +:+ type_name self
                   +:+ "' object has no attribute 'compute_from_arrays'"))
  end.

(** ** The operator dispatch routine *)

(** [binary_operator(op)]: the factory evaluates [commuted_method_getter]
    once and returns the method. *)
Definition binary_operator (op : string) : pyobj -> pyobj -> st term_cache pyobj :=
  let commuted_method_getter :=
    fun o => call_method o (method_name_for_op op true) in
  fun self other =>
    if isinstance self NumericalExpression then
      let! (self_expr, other_expr, new_inputs) :=
        lift (build_binary_op self op other) in
      NumExprFilter_new
        ("(" +:+ self_expr +:+ ") " +:+ op +:+ " (" +:+ other_expr +:+ ")")
        new_inputs
    else if isinstance other NumericalExpression then
      commuted_method_getter other self
    else if isinstance other Filter then
      if is_ self other then
        NumExprFilter_new ("x_0 " +:+ op +:+ " x_0") [self]
      else
        NumExprFilter_new ("x_0 " +:+ op +:+ " x_1") [self; other]
    else if isinstance other int then
      NumExprFilter_new ("x_0 " +:+ op +:+ " (" +:+ str_of_int (int_of other) +:+ ")")
                        [self]
    else raise (BadBinaryOperator op self other).

(** The operator methods installed on [Filter] at class definition:
    [{method_name_for_op(op): binary_operator(op) for op in FILTER_BINOPS}]. *)
Definition Filter_clsdict : list (string * (pyobj -> pyobj -> st term_cache pyobj)) :=
  map (fun op => (method_name_for_op op false, binary_operator op)) FILTER_BINOPS.

End Model.

(** ** Values computed, as functions of the argument values *)

Definition result_bind {A B} (r : result A) (k : A -> result B) : result B :=
  match r with Ok a => k a | Raise e => Raise e end.

(** The filters whose [compute_from_arrays] is defined in this module,
    the second filter of a sequence included. *)
Fixpoint defined_here (self : pyobj) : bool :=
  match self with
  | NumExprFilter _ _ | PercentileFilter _ _ _ => true
  | SequencedFilter _ _then => defined_here _then
  | _ => false
  end.

(** The references [ls] hold the arrays [vs] in the store [h]. *)
Definition holds (h : heap) (ls : list loc) (vs : list ndarray) : Prop :=
  Forall2 (fun l v => h !! l = Some v) ls vs.

(** Two outcomes are the same: the same exception, or references to
    arrays with the same contents. *)
Definition same_outcome (o1 o2 : result loc * heap) : Prop :=
  match o1, o2 with
  | (Ok l1, h1), (Ok l2, h2) => is_Some (h1 !! l1) /\ h1 !! l1 = h2 !! l2
  | (Raise e1, _), (Raise e2, _) => e1 = e2
  | _, _ => False
  end.


(** A row of factor values with the entries outside the universe
    replaced by NaN, and the whole array so treated. *)
Definition masked_row (row : list float64) (mask_row : list bool) : list float64 :=
  zip_with (fun x (b : bool) => if b then x else nan) row mask_row.

Definition masked (d : matrix float64) (m : matrix bool) : matrix float64 :=
  zip_with masked_row d m.

(** Every interned node passed the validation of its class. *)
Definition cache_valid (cache : term_cache) : Prop :=
  forall o, In o cache ->
    match o with
    | PercentileFilter _ _ _ => PercentileFilter_validate o = Ok tt
    | SequencedFilter _ _ => SequencedFilter_validate o = Ok tt
    | _ => True
    end.

(** [0.0 <= lo < hi <= 100.0] over the numbers the floats denote. *)
Definition bounds_well_formed (lo hi : float64) : Prop :=
  exists p q : Q, lo = Finite p /\ hi = Finite q /\ (0 <= p)%Q /\ (p < q)%Q /\ (q <= 100)%Q.

(** The run of [m] in the store [h] realises the outcome [r]: it raises
    what [r] raises or returns a reference to the value of [r], and the
    store it leaves is [h] followed by newly allocated arrays. *)
Definition realises (m : st heap loc) (h : heap) (r : result ndarray) : Prop :=
  exists t,
    match m h with
    | (Ok l, h') => h' = h ++ t /\ exists v, r = Ok v /\ h' !! l = Some v
    | (Raise e, h') => h' = h ++ t /\ r = Raise e
    end.

(** [m] raises only exceptions satisfying [P]. *)
Definition raises_only {S A} (P : exn -> Prop) (m : st S A) : Prop :=
  forall s e s', m s = (Raise e, s') -> P e.

(** The exceptions of the array layer. *)
Definition array_error (e : exn) : Prop :=
  match e with
  | TypeError _ | IndexError _ | ValueError _ => True
  | _ => False
  end.

Section Denotation.
Context {ext : Externals}.

(** What [compute_from_arrays] returns for the classes of this module, on
    the contents of the argument arrays. *)
Fixpoint array_result (self : pyobj) (arrays : list ndarray) (mask : ndarray)
  : result ndarray :=
  match self with
  | NumExprFilter _expr _ =>
      result_bind (numexpr_evaluate _expr arrays (ndarray_shape mask)) (fun raw =>
      np_and (BoolArray raw) mask)
  | PercentileFilter _ lo hi =>
      match arrays with
      | [] => Raise (IndexError "tuple index out of range")
      | a0 :: _ =>
          result_bind (np_astype_float64 a0) (fun data0 =>
          result_bind (np_invert (np_values mask)) (fun idx =>
          result_bind (np_putmask nan data0 idx) (fun data =>
          result_bind (np_nanpercentile lo data) (fun lower_bounds =>
          result_bind (np_nanpercentile hi data) (fun upper_bounds =>
          result_bind (np_less_equal lower_bounds data) (fun below =>
          result_bind (np_less_equal data upper_bounds) (fun above =>
          np_and below above)))))))
      end
  | SequencedFilter _ _then =>
      match arrays with
      | [] => Raise (IndexError "tuple index out of range")
      | first_result :: then_inputs =>
          result_bind (np_and mask first_result) (fun narrowed =>
          array_result _then then_inputs narrowed)
      end
  | _ => Raise (AttributeError "compute_from_arrays")
  end.



End Denotation.

(** ** Stand-ins for the external collaborators, and sample data

    Small executable instances used to run the model on concrete inputs. *)
Module Sample.

(** The two operators of the set, with their reflected method names. *)
Definition method_name (op : string) (commute : bool) : string :=
  if String.eqb op "&" then (if commute then "__rand__" else "__and__")
  else if String.eqb op "|" then (if commute then "__ror__" else "__or__")
  else "".

(** Position of [x] in [inputs], appended when absent. *)
Fixpoint ensure_element (inputs : list pyobj) (x : pyobj) (i : nat)
  : list pyobj * nat :=
  match inputs with
  | [] => ([x], i)
  | y :: rest =>
      if is_ y x then (inputs, i)
      else let (rest', k) := ensure_element rest x (S i) in (y :: rest', k)
  end.

(** Combination with a plain term or an integer; merging two expressions
    is left out of the stand-in. *)
Definition merge (self : pyobj) (op : string) (other : pyobj)
  : result (string * string * list pyobj) :=
  match self with
  | NumExprFilter e inputs =>
      if isinstance other NumericalExpression then
        Raise (ValueError "merging two expressions is outside the stand-in")
      else if isinstance other Term then
        let (new_inputs, k) := ensure_element inputs other 0 in
        Ok (e, "x_" +:+ str_of_int (Z.of_nat k), new_inputs)
      else if isinstance other int then Ok (e, str_of_int (int_of other), inputs)
      else Raise (BadBinaryOperator op self other)
  | _ => Raise (BadBinaryOperator op self other)
  end.

(** An evaluator for the two-operand forms the dispatch routine writes. *)
Definition evaluate (expr : string) (local_dict : list ndarray) (shp : nat * nat)
  : result (matrix bool) :=
  let var i := match local_dict !! i with
               | Some (BoolArray x) => Ok x
               | _ => Raise (ValueError "unbound variable")
               end in
  let apply2 f i j :=
    result_bind (var i) (fun x => result_bind (var j) (fun y => broadcast f x y)) in
  if String.eqb expr "x_0 & x_1" then apply2 andb 0%nat 1%nat
  else if String.eqb expr "x_0 | x_1" then apply2 orb 0%nat 1%nat
  else if String.eqb expr "x_0 & x_0" then apply2 andb 0%nat 0%nat
  else if String.eqb expr "x_0 | x_0" then apply2 orb 0%nat 0%nat
  else Raise (ValueError "unsupported expression").

Fixpoint insert_sorted (x : Q) (l : list Q) : list Q :=
  match l with
  | [] => [x]
  | y :: rest => if Qle_bool x y then x :: l else y :: insert_sorted x rest
  end.

Definition finite_values (row : list float64) : option (list Q) :=
  mapM (fun x => match x with Finite q => Some q | _ => None end) row.

(** Percentile by linear interpolation between closest ranks, over the
    finite rows. *)
Definition percentile (row : list float64) (q : float64) : float64 :=
  match finite_values row, q with
  | Some vs, Finite p =>
      let s := foldr insert_sorted [] vs in
      match s with
      | [] => NaN
      | v0 :: _ =>
          let pos := (p / 100 * inject_Z (Z.of_nat (length s) - 1))%Q in
          let k := Qfloor pos in
          let frac := (pos - inject_Z k)%Q in
          let lo := nth (Z.to_nat k) s v0 in
          let hi := nth (S (Z.to_nat k)) s lo in
          Finite (Qred (lo + frac * (hi - lo)))
      end
  | _, _ => NaN
  end.

Definition nanpercentile_linear (row : list float64) (q : float64) : float64 :=
  percentile (List.filter (fun x => negb (isnan x)) row) q.

#[local] Instance ext : Externals := {|
  FILTER_BINOPS := ["&"; "|"];
  method_name_for_op := method_name;
  build_binary_op := merge;
  call_method := fun o name _ =>
    raise (AttributeError ("'" +:+ type_name o +:+ "' object has no attribute '"
                           +:+ name +:+ "'"));
  numexpr_evaluate := evaluate;
  nanpercentile_row := nanpercentile_linear;
  user_compute_from_arrays := fun cls _ _ _ =>
    raise (AttributeError ("'" +:+ cls_name cls
                           +:+ "' object has no attribute 'compute_from_arrays'"))
|}.

Definition Factor_cls : pyclass :=
  {| cls_name := "Factor"; cls_is_Filter := false; cls_is_NumericalExpression := false |}.
Definition TestingFilter_cls : pyclass :=
  {| cls_name := "TestingFilter"; cls_is_Filter := true;
     cls_is_NumericalExpression := false |}.

Definition factor : pyobj := UserTerm Factor_cls [].
Definition f : pyobj := UserTerm TestingFilter_cls [].
Definition g : pyobj := UserTerm TestingFilter_cls [factor].
(** [f & g], already an expression. *)
Definition f_and_g : pyobj := NumExprFilter "x_0 & x_1" [f; g].

Definition floats (zs : list Z) : list float64 := map float_of_Z zs.

(** A store with two filter results, a mask and one row of factor values. *)
Definition store0 : heap :=
  [ BoolArray [[true; false; true]];
    BoolArray [[true; true; false]];
    BoolArray [[true; false; true]];
    FloatArray [floats [10; 20; 30; 40; 50]];
    BoolArray [[true; true; true; true; true]];
    BoolArray [[true; true; false; true; true]] ]%Z.

End Sample.

(** * Properties *)

(** ** Node identity *)

Lemma float64_eqb_eq (a b : float64) : float64_eqb a b = true -> a = b.
Proof.
  destruct a as [[xn xd]| | |], b as [[yn yd]| | |]; simpl; try discriminate; trivial.
  intros H. apply andb_true_iff in H as [Hn Hd].
  apply Z.eqb_eq in Hn. apply Pos.eqb_eq in Hd. now subst.
Qed.

Lemma float64_eqb_refl (a : float64) : float64_eqb a a = true.
Proof.
  destruct a as [[xn xd]| | |]; simpl; trivial.
  now rewrite Z.eqb_refl, Pos.eqb_refl.
Qed.

Lemma pyclass_eqb_eq (c d : pyclass) : pyclass_eqb c d = true -> c = d.
Proof.
  destruct c as [n1 f1 e1], d as [n2 f2 e2]; unfold pyclass_eqb; simpl.
  intros H. apply andb_true_iff in H as [H He]. apply andb_true_iff in H as [Hn Hf].
  apply String.eqb_eq in Hn. apply Bool.eqb_prop in Hf, He. now subst.
Qed.

Lemma pyclass_eqb_refl (c : pyclass) : pyclass_eqb c c = true.
Proof.
  unfold pyclass_eqb. now rewrite String.eqb_refl, !Bool.eqb_reflx.
Qed.

Lemma all2_eq {A} (f : A -> A -> bool) (xs : list A) :
  Forall (fun x => forall y, f x y = true -> x = y) xs ->
  forall ys, all2 f xs ys = true -> xs = ys.
Proof.
  induction 1 as [|x xs Hx _ IH]; intros [|y ys]; simpl; try discriminate; trivial.
  intros H. apply andb_true_iff in H as [H1 H2].
  f_equal; [now apply Hx | now apply IH].
Qed.

Lemma all2_refl {A} (f : A -> A -> bool) (xs : list A) :
  Forall (fun x => f x x = true) xs -> all2 f xs xs = true.
Proof.
  induction 1 as [|x xs Hx _ IH]; simpl; trivial. now rewrite Hx, IH.
Qed.

(** Nested induction over nodes and their input tuples. *)
Lemma pyobj_nested_ind (P : pyobj -> Prop) :
  P PyNone -> (forall b, P (PyBool b)) -> (forall z, P (PyInt z)) ->
  (forall x, P (PyFloat x)) -> (forall s, P (PyStr s)) ->
  (forall c inputs, Forall P inputs -> P (UserTerm c inputs)) ->
  (forall e inputs, Forall P inputs -> P (NumExprFilter e inputs)) ->
  (forall inputs lo hi, Forall P inputs -> P (PercentileFilter inputs lo hi)) ->
  (forall inputs t, Forall P inputs -> P t -> P (SequencedFilter inputs t)) ->
  forall o, P o.
Proof.
  intros HN HB HI HF HS HU HE HP HQ.
  fix IH 1. intros o.
  destruct o as [| | | | |c inputs|e inputs|inputs lo hi|inputs t].
  - exact HN.
  - apply HB.
  - apply HI.
  - apply HF.
  - apply HS.
  - apply HU. induction inputs as [|x l IHl]; constructor; [apply IH | exact IHl].
  - apply HE. induction inputs as [|x l IHl]; constructor; [apply IH | exact IHl].
  - apply HP. induction inputs as [|x l IHl]; constructor; [apply IH | exact IHl].
  - apply HQ; [|apply IH].
    induction inputs as [|x l IHl]; constructor; [apply IH | exact IHl].
Qed.

Lemma is_eq (a b : pyobj) : is_ a b = true -> a = b.
Proof.
  revert b. induction a as [| | | | |c xs IH|e xs IH|xs lo hi IH|xs t IH IHt]
    using pyobj_nested_ind; intros o; destruct o; simpl; try discriminate; trivial.
  - intros H. now apply Bool.eqb_prop in H; subst.
  - intros H. now apply Z.eqb_eq in H; subst.
  - intros H. now apply float64_eqb_eq in H; subst.
  - intros H. now apply String.eqb_eq in H; subst.
  - intros H. apply andb_true_iff in H as [Hc Hl].
    apply pyclass_eqb_eq in Hc. apply (all2_eq _ _ IH) in Hl. now subst.
  - intros H. apply andb_true_iff in H as [He Hl].
    apply String.eqb_eq in He. apply (all2_eq _ _ IH) in Hl. now subst.
  - intros H. apply andb_true_iff in H as [H Hh]. apply andb_true_iff in H as [Hl Hlo].
    apply float64_eqb_eq in Hlo, Hh. apply (all2_eq _ _ IH) in Hl. now subst.
  - intros H. apply andb_true_iff in H as [Hl Ht].
    apply IHt in Ht. apply (all2_eq _ _ IH) in Hl. now subst.
Qed.

Lemma is_refl (a : pyobj) : is_ a a = true.
Proof.
  induction a as [| | | | |c xs IH|e xs IH|xs lo hi IH|xs t IH IHt]
    using pyobj_nested_ind; simpl; trivial.
  - apply Bool.eqb_reflx.
  - apply Z.eqb_refl.
  - apply float64_eqb_refl.
  - apply String.eqb_refl.
  - now rewrite pyclass_eqb_refl, (all2_refl _ _ IH).
  - now rewrite String.eqb_refl, (all2_refl _ _ IH).
  - now rewrite (all2_refl _ _ IH), !float64_eqb_refl.
  - now rewrite (all2_refl _ _ IH), IHt.
Qed.

(** ** The term cache *)

(** A construction returns the requested instance or raises what its
    validation raises; the cache only ever gains the validated instance. *)
Lemma Term_new_cases (self : pyobj) (validate : pyobj -> result unit)
    (cache : term_cache) :
  (Term_new self validate cache = (Ok self, cache) /\ In self cache)
  \/ (Term_new self validate cache = (Ok self, self :: cache)
      /\ validate self = Ok tt /\ ~ In self cache)
  \/ (exists e, Term_new self validate cache = (Raise e, cache)
                /\ validate self = Raise e /\ ~ In self cache).
Proof.
  unfold Term_new. destruct (find (is_ self) cache) as [cached|] eqn:Hfind.
  - left. apply find_some in Hfind as [Hin His]. apply is_eq in His. now subst.
  - assert (Hnot : ~ In self cache).
    { intros Hin. apply (find_none _ _ Hfind) in Hin. now rewrite is_refl in Hin. }
    destruct (validate self) as [[]|e] eqn:Hv.
    + right; left. auto.
    + right; right. exists e. auto.
Qed.

Lemma Term_new_hit (self : pyobj) (validate : pyobj -> result unit)
    (cache : term_cache) :
  In self cache -> Term_new self validate cache = (Ok self, cache).
Proof.
  intros Hin. destruct (Term_new_cases self validate cache)
    as [[E _]|[[_ [_ Hnot]]|[e [_ [_ Hnot]]]]]; [exact E| |]; now destruct Hnot.
Qed.

Lemma Term_new_valid (self : pyobj) (validate : pyobj -> result unit)
    (cache : term_cache) :
  validate self = Ok tt ->
  exists cache', Term_new self validate cache = (Ok self, cache')
                 /\ In self cache' /\ incl cache cache'.
Proof.
  intros Hv. destruct (Term_new_cases self validate cache)
    as [[-> Hin]|[[-> [_ _]]|[e [_ [He _]]]]].
  - exists cache. split; [|split]; auto. apply incl_refl.
  - exists (self :: cache). split; [|split]; auto.
    + now left.
    + apply incl_tl, incl_refl.
  - congruence.
Qed.

(** ** The operator dispatch routine *)

(** The decimal literal written for a constant reads back as the constant. *)
Lemma str_of_int_reads_back (z : Z) :
  option_map Z.of_int (NilZero.int_of_string (str_of_int z)) = Some z.
Proof.
  unfold str_of_int.
  rewrite NilZero.isi.
  - simpl. now rewrite DecimalZ.of_to.
  - destruct z as [|p|p]; simpl; try discriminate.
    intros H. injection H as H. now apply DecimalPos.Unsigned.to_uint_nonnil in H.
  - destruct z as [|p|p]; simpl; try discriminate.
    intros H. injection H as H. now apply DecimalPos.Unsigned.to_uint_nonnil in H.
Qed.

Section Dispatch.
Context {ext : Externals}.

(** Every operator of the set is installed on [Filter] under its method
    name, bound to its own dispatch routine. *)
Lemma Filter_clsdict_installs (op : string) :
  In op FILTER_BINOPS ->
  In (method_name_for_op op false, binary_operator op) Filter_clsdict.
Proof.
  intros Hop. unfold Filter_clsdict.
  exact (in_map (fun op => (method_name_for_op op false, binary_operator op))
                FILTER_BINOPS op Hop).
Qed.

Lemma NumExprFilter_new_ok (expr : string) (binds : list pyobj) (cache : term_cache) :
  exists cache',
    NumExprFilter_new expr binds cache = (Ok (NumExprFilter expr binds), cache').
Proof.
  destruct (Term_new_valid (NumExprFilter expr binds) Term_validate cache eq_refl)
    as [cache' [H _]].
  now exists cache'.
Qed.

(** Whatever the expression merging returns, a left operand that is a
    NumericalExpression yields a parenthesised expression or raises. *)
Lemma binary_operator_expression_left (op : string) (self other : pyobj)
    (cache cache' : term_cache) (node : pyobj) :
  isinstance self NumericalExpression = true ->
  binary_operator op self other cache = (Ok node, cache') ->
  exists self_expr other_expr new_inputs,
    node = NumExprFilter
             ("(" +:+ self_expr +:+ ") " +:+ op +:+ " (" +:+ other_expr +:+ ")")
             new_inputs.
Proof.
  intros Hself. unfold binary_operator. rewrite Hself. unfold bind, lift.
  destruct (build_binary_op self op other) as [[[se oe] ni]|e]; [|discriminate].
  intros H. exists se, oe, ni.
  unfold NumExprFilter_new in H.
  destruct (Term_new_cases
              (NumExprFilter ("(" +:+ se +:+ ") " +:+ op +:+ " (" +:+ oe +:+ ")") ni)
              Term_validate cache) as [[E _]|[[E _]|[e [E _]]]];
    rewrite E in H; congruence.
Qed.

(** C5 (as amended): when the right operand is the very node on the left,
    and that node is a Filter that is not itself a NumericalExpression, the
    dispatch routine of any operator [op] produces the NumExprFilter with
    expression [x_0 <op> x_0] whose bound inputs are the one-element tuple
    holding the shared node. *)
Theorem binary_operator_same_node (op : string) (a b : pyobj) (cache : term_cache) :
  isinstance a Filter = true ->
  isinstance a NumericalExpression = false ->
  is_ a b = true ->
  exists cache',
    binary_operator op a b cache
    = (Ok (NumExprFilter ("x_0 " +:+ op +:+ " x_0") [a]), cache').
Proof.
  intros Hfilter Hexpr His.
  pose proof (is_eq _ _ His) as <-.
  unfold binary_operator. rewrite Hexpr, Hfilter, His.
  apply NumExprFilter_new_ok.
Qed.

(** C6 (as amended): for two distinct Filters neither of which is a
    NumericalExpression, the dispatch routine of [op] (in particular [&])
    produces the NumExprFilter with expression [x_0 <op> x_1] over the two
    bound inputs [(a, b)], in that order. *)
Theorem binary_operator_distinct_nodes (op : string) (a b : pyobj)
    (cache : term_cache) :
  isinstance a Filter = true ->
  isinstance b Filter = true ->
  isinstance a NumericalExpression = false ->
  isinstance b NumericalExpression = false ->
  is_ a b = false ->
  exists cache',
    binary_operator op a b cache
    = (Ok (NumExprFilter ("x_0 " +:+ op +:+ " x_1") [a; b]), cache').
Proof.
  intros Ha Hb Hae Hbe His.
  unfold binary_operator. rewrite Hae, Hbe, Hb, His.
  apply NumExprFilter_new_ok.
Qed.

(** An object that passes [isinstance(o, int)] is no term. *)
Lemma int_not_term (k : pyobj) :
  isinstance k int = true ->
  isinstance k NumericalExpression = false /\ isinstance k Filter = false.
Proof. destruct k; simpl; try discriminate; auto. Qed.

(** C7: for a Filter [a] that is not a NumericalExpression and an
    integral or boolean scalar [k], the dispatch routine of [op] produces
    the NumExprFilter with the single bound input [a] and the expression
    [x_0 <op> (<c>)], where [<c>] is the decimal literal of [int(k)]:
    [int(k)] is the integer itself for an integer, 1 for [True] and 0 for
    [False], and the literal reads back as that value.  So [a <op> True]
    builds [x_0 <op> (1)] and is [a <op> 1]. *)
Theorem binary_operator_int_constant (op : string) (a k : pyobj) (cache : term_cache) :
  isinstance a Filter = true ->
  isinstance a NumericalExpression = false ->
  isinstance k int = true ->
  (exists cache',
     binary_operator op a k cache
     = (Ok (NumExprFilter ("x_0 " +:+ op +:+ " (" +:+ str_of_int (int_of k) +:+ ")")
                          [a]), cache'))
  /\ match k with
     | PyInt z => int_of k = z
     | PyBool b => int_of k = (if b then 1 else 0)%Z
     | _ => False
     end
  /\ option_map Z.of_int (NilZero.int_of_string (str_of_int (int_of k)))
     = Some (int_of k)
  /\ (exists cache',
        binary_operator op a (PyBool true) cache
        = (Ok (NumExprFilter ("x_0 " +:+ op +:+ " (1)") [a]), cache'))
  /\ (exists cache',
        binary_operator op a (PyBool false) cache
        = (Ok (NumExprFilter ("x_0 " +:+ op +:+ " (0)") [a]), cache'))
  /\ binary_operator op a (PyBool true) cache = binary_operator op a (PyInt 1) cache
  /\ binary_operator op a (PyBool false) cache = binary_operator op a (PyInt 0) cache.
Proof.
  intros Ha Hae Hk. split; [|split; [|split; [|split; [|split]]]].
  - destruct (int_not_term k Hk) as [Hke Hkf].
    unfold binary_operator. rewrite Hae, Hke, Hkf, Hk.
    apply NumExprFilter_new_ok.
  - destruct k; simpl in Hk; try discriminate; reflexivity.
  - apply str_of_int_reads_back.
  - unfold binary_operator. rewrite Hae.
    exact (NumExprFilter_new_ok ("x_0 " +:+ op +:+ " (1)") [a] cache).
  - unfold binary_operator. rewrite Hae.
    exact (NumExprFilter_new_ok ("x_0 " +:+ op +:+ " (0)") [a] cache).
  - unfold binary_operator. rewrite Hae. simpl. split; reflexivity.
Qed.

End Dispatch.

Lemma binary_operator_same_node_witness :
  exists cache',
    binary_operator (ext := Sample.ext) "&" Sample.f Sample.f []
    = (Ok (NumExprFilter "x_0 & x_0" [Sample.f]), cache').
Proof.
  apply (binary_operator_same_node (ext := Sample.ext) "&" Sample.f Sample.f []);
    reflexivity.
Defined.

Lemma binary_operator_distinct_nodes_witness :
  exists cache',
    binary_operator (ext := Sample.ext) "&" Sample.f Sample.g []
    = (Ok (NumExprFilter "x_0 & x_1" [Sample.f; Sample.g]), cache').
Proof.
  apply (binary_operator_distinct_nodes (ext := Sample.ext) "&" Sample.f Sample.g []);
    reflexivity.
Defined.

Lemma binary_operator_int_constant_witness :
  exists cache',
    binary_operator (ext := Sample.ext) "&" Sample.f (PyBool true) []
    = (Ok (NumExprFilter "x_0 & (1)" [Sample.f]), cache').
Proof.
  apply (binary_operator_int_constant (ext := Sample.ext) "&" Sample.f (PyBool true) []);
    reflexivity.
Defined.

(** C5 as stated fails: [f & g] is a Filter, and combined with itself it
    takes the NumericalExpression branch, whose result is a parenthesised
    expression (or an exception), never [x_0 & x_0] over the one input. *)
Lemma binary_operator_same_expression_node :
  isinstance Sample.f_and_g Filter = true
  /\ is_ Sample.f_and_g Sample.f_and_g = true
  /\ ~ exists (ext : Externals) (cache cache' : term_cache),
        binary_operator "&" Sample.f_and_g Sample.f_and_g cache
        = (Ok (NumExprFilter "x_0 & x_0" [Sample.f_and_g]), cache').
Proof.
  split; [reflexivity|]. split; [reflexivity|].
  intros (ext & cache & cache' & H).
  apply binary_operator_expression_left in H as (se & oe & ni & H); [|reflexivity].
  discriminate H.
Qed.

(** C6 as stated fails: [f & g] and [f] are distinct Filters, but the
    left one is a NumericalExpression, so the result is a parenthesised
    expression over merged inputs (or an exception), never [x_0 & x_1]
    over [(f & g, f)]. *)
Lemma binary_operator_expression_and_filter :
  isinstance Sample.f_and_g Filter = true
  /\ isinstance Sample.f Filter = true
  /\ is_ Sample.f_and_g Sample.f = false
  /\ ~ exists (ext : Externals) (cache cache' : term_cache),
        binary_operator "&" Sample.f_and_g Sample.f cache
        = (Ok (NumExprFilter "x_0 & x_1" [Sample.f_and_g; Sample.f]), cache').
Proof.
  split; [reflexivity|]. split; [reflexivity|]. split; [reflexivity|].
  intros (ext & cache & cache' & H).
  apply binary_operator_expression_left in H as (se & oe & ni & H); [|reflexivity].
  discriminate H.
Qed.

(** ** Exceptions a computation can raise *)

Lemma raises_only_ret {S A} (P : exn -> Prop) (a : A) : raises_only (S := S) P (ret a).
Proof. intros s e s' H. discriminate H. Qed.

Lemma raises_only_raise {S A} (P : exn -> Prop) (e : exn) :
  P e -> raises_only (S := S) (A := A) P (raise e).
Proof. intros HP s e' s' H. injection H as <- _. exact HP. Qed.

Lemma raises_only_lift {S A} (P : exn -> Prop) (r : result A) :
  (forall e, r = Raise e -> P e) -> raises_only (S := S) P (lift r).
Proof. intros HP s e s' H. injection H as -> _. now apply HP. Qed.

Lemma raises_only_bind {S A B} (P : exn -> Prop) (m : st S A) (k : A -> st S B) :
  raises_only P m -> (forall a, raises_only P (k a)) -> raises_only P (bind m k).
Proof.
  intros Hm Hk s e s'. unfold bind. destruct (m s) as [[a|e0] s0] eqn:E.
  - apply Hk.
  - intros H. injection H as <- _. exact (Hm _ _ _ E).
Qed.

Lemma sequence_raises {A} (P : exn -> Prop) (rs : list (result A)) (e : exn) :
  Forall (fun r => forall e, r = Raise e -> P e) rs ->
  sequence rs = Raise e -> P e.
Proof.
  induction 1 as [|r rs Hr _ IH]; simpl; [discriminate|].
  destruct r as [a|e0].
  - destruct (sequence rs); [discriminate|]. intros H. apply IH. exact H.
  - intros H. injection H as <-. now apply Hr.
Qed.

Lemma broadcast_row_raises {A B C} (f : A -> B -> C) r s e :
  broadcast_row f r s = Raise e -> array_error e.
Proof.
  unfold broadcast_row. destruct (Nat.eqb _ _); [discriminate|].
  destruct r as [|x [|x' r]], s as [|y [|y' s]]; try discriminate;
    intros H; injection H as <-; exact I.
Qed.

Lemma broadcast_raises {A B C} (f : A -> B -> C) a b e :
  broadcast f a b = Raise e -> array_error e.
Proof.
  assert (Hz : forall (a : matrix A) (b : matrix B),
             Forall (fun r : result (list C) => forall e, r = Raise e -> array_error e)
                    (zip_with (broadcast_row f) a b)).
  { intros a0. induction a0 as [|r a0 IH]; intros [|s b0]; simpl; constructor.
    - intros e0. apply broadcast_row_raises.
    - apply IH. }
  assert (Hl : forall r (b : matrix B),
             Forall (fun r : result (list C) => forall e, r = Raise e -> array_error e)
                    (map (broadcast_row f r) b)).
  { intros r b0. induction b0; simpl; constructor; auto.
    intros e0. apply broadcast_row_raises. }
  assert (Hr : forall s (a : matrix A),
             Forall (fun r : result (list C) => forall e, r = Raise e -> array_error e)
                    (map (fun r => broadcast_row f r s) a)).
  { intros s a0. induction a0; simpl; constructor; auto.
    intros e0. apply broadcast_row_raises. }
  unfold broadcast. destruct (Nat.eqb _ _).
  - apply sequence_raises, Hz.
  - destruct a as [|r [|r' a]], b as [|s [|s' b]];
      try (intros H; injection H as <-; exact I);
      try (apply sequence_raises, Hl); try (apply sequence_raises, Hr).
Qed.

Lemma np_and_raises a b e : np_and a b = Raise e -> array_error e.
Proof.
  destruct a as [x|x], b as [y|y]; simpl;
    try (intros H; injection H as <-; exact I).
  destruct (broadcast andb x y) eqn:E; simpl; [discriminate|].
  intros H; injection H as <-. exact (broadcast_raises _ _ _ _ E).
Qed.

Lemma np_less_equal_raises a b e : np_less_equal a b = Raise e -> array_error e.
Proof.
  unfold np_less_equal.
  destruct (broadcast float_le (as_float a) (as_float b)) eqn:E; simpl; [discriminate|].
  intros H; injection H as <-. exact (broadcast_raises _ _ _ _ E).
Qed.

Lemma np_invert_raises a e : np_invert a = Raise e -> array_error e.
Proof. destruct a; simpl; [discriminate|]. intros H; injection H as <-; exact I. Qed.

Lemma np_putmask_raises v d i e : np_putmask v d i = Raise e -> array_error e.
Proof.
  destruct d, i; simpl; try (intros H; injection H as <-; exact I).
  destruct (same_shape _ _); [discriminate|]. intros H; injection H as <-; exact I.
Qed.

Lemma load_raises (l : loc) : raises_only array_error (load l).
Proof.
  intros h e h'. unfold load. destruct (h !! l); [discriminate|].
  intros H; injection H as <- _. exact I.
Qed.

Lemma alloc_raises (a : ndarray) : raises_only array_error (alloc a).
Proof. intros h e h' H. discriminate H. Qed.

Lemma unop_raises (f : ndarray -> result ndarray) (a : loc) :
  (forall x e, f x = Raise e -> array_error e) -> raises_only array_error (unop f a).
Proof.
  intros Hf. unfold unop.
  apply raises_only_bind; [apply load_raises|]. intros x.
  apply raises_only_bind; [apply raises_only_lift, Hf|]. intros r.
  apply alloc_raises.
Qed.

Lemma binop_raises (f : ndarray -> ndarray -> result ndarray) (a b : loc) :
  (forall x y e, f x y = Raise e -> array_error e) ->
  raises_only array_error (binop f a b).
Proof.
  intros Hf. unfold binop.
  apply raises_only_bind; [apply load_raises|]. intros x.
  apply raises_only_bind; [apply load_raises|]. intros y.
  apply raises_only_bind; [apply raises_only_lift, Hf|]. intros r.
  apply alloc_raises.
Qed.

Lemma PercentileFilter_compute_raises {ext : Externals} lo hi arrays mask :
  raises_only array_error (PercentileFilter_compute_from_arrays lo hi arrays mask).
Proof.
  unfold PercentileFilter_compute_from_arrays.
  apply raises_only_bind.
  { unfold getitem. destruct (arrays !! 0%nat).
    - apply raises_only_ret.
    - now apply raises_only_raise. }
  intros a0. apply raises_only_bind.
  { apply unop_raises. discriminate. }
  intros data. apply raises_only_bind.
  { unfold values. apply raises_only_bind; [apply load_raises|]. intros frame.
    destruct (zero_columns frame); [apply alloc_raises | apply raises_only_ret]. }
  intros mv. apply raises_only_bind; [apply unop_raises, np_invert_raises|].
  intros idx. apply raises_only_bind.
  { unfold setitem.
    apply raises_only_bind; [apply load_raises|]. intros d.
    apply raises_only_bind; [apply load_raises|]. intros i.
    apply raises_only_bind; [apply raises_only_lift, np_putmask_raises|]. intros r.
    intros h e h' H. discriminate H. }
  intros _. apply raises_only_bind; [apply unop_raises; discriminate|].
  intros lower. apply raises_only_bind; [apply unop_raises; discriminate|].
  intros upper. apply raises_only_bind; [apply binop_raises, np_less_equal_raises|].
  intros below. apply raises_only_bind; [apply binop_raises, np_less_equal_raises|].
  intros above. apply binop_raises, np_and_raises.
Qed.

(** ** Construction of PercentileFilter *)

Lemma float_bounds_iff (lo hi : float64) :
  float_le (float_of_Z 0) lo && float_lt lo hi && float_le hi (float_of_Z 100) = true
  <-> bounds_well_formed lo hi.
Proof.
  unfold bounds_well_formed. split.
  - intros H. apply andb_true_iff in H as [H H3]. apply andb_true_iff in H as [H1 H2].
    destruct lo as [p| | |], hi as [q| | |]; simpl in *; try discriminate.
    exists p, q. repeat split; trivial.
    + now apply Qle_bool_iff.
    + apply negb_true_iff in H2. apply Qnot_le_lt. intros Hle.
      apply Qle_bool_iff in Hle. congruence.
    + now apply Qle_bool_iff.
  - intros (p & q & -> & -> & H1 & H2 & H3). simpl.
    apply andb_true_iff; split; [apply andb_true_iff; split|].
    + now apply Qle_bool_iff.
    + apply negb_true_iff. destruct (Qle_bool q p) eqn:E; trivial.
      apply Qle_bool_iff in E. now apply Qle_not_lt in E.
    + now apply Qle_bool_iff.
Qed.

Lemma PercentileFilter_validate_iff (factor : pyobj) (lo hi : float64) :
  PercentileFilter_validate (PercentileFilter [factor] lo hi) = Ok tt
  <-> bounds_well_formed lo hi.
Proof.
  rewrite <- float_bounds_iff. unfold PercentileFilter_validate.
  destruct (float_le (float_of_Z 0) lo && float_lt lo hi
            && float_le hi (float_of_Z 100)); simpl; split;
    trivial; intros H; discriminate H.
Qed.

Lemma PercentileFilter_validate_raises (factor : pyobj) (lo hi : float64) :
  ~ bounds_well_formed lo hi ->
  PercentileFilter_validate (PercentileFilter [factor] lo hi)
  = Raise (BadPercentileBounds lo hi).
Proof.
  rewrite <- float_bounds_iff. unfold PercentileFilter_validate.
  destruct (float_le (float_of_Z 0) lo && float_lt lo hi
            && float_le hi (float_of_Z 100)); simpl; [now intros []|trivial].
Qed.

Lemma cache_valid_nil : cache_valid [].
Proof. intros o []. Qed.

Lemma cache_valid_cons (o : pyobj) (cache : term_cache) :
  match o with
  | PercentileFilter _ _ _ => PercentileFilter_validate o = Ok tt
  | SequencedFilter _ _ => SequencedFilter_validate o = Ok tt
  | _ => True
  end ->
  cache_valid cache -> cache_valid (o :: cache).
Proof. intros Ho Hc x [<-|Hin]; [exact Ho | now apply Hc]. Qed.

(** Constructions keep the cache valid. *)
Lemma Term_new_cache_valid (self : pyobj) (validate : pyobj -> result unit)
    (cache : term_cache) :
  (validate self = Ok tt ->
   match self with
   | PercentileFilter _ _ _ => PercentileFilter_validate self = Ok tt
   | SequencedFilter _ _ => SequencedFilter_validate self = Ok tt
   | _ => True
   end) ->
  cache_valid cache -> cache_valid (snd (Term_new self validate cache)).
Proof.
  intros Hself Hcache.
  destruct (Term_new_cases self validate cache)
    as [[-> _]|[[-> [Hv _]]|[e [-> _]]]]; cbn [snd]; trivial.
  apply cache_valid_cons; [exact (Hself Hv) | exact Hcache].
Qed.

Lemma PercentileFilter_new_cache_valid (factor : pyobj) (lo hi : float64)
    (cache : term_cache) :
  cache_valid cache -> cache_valid (snd (PercentileFilter_new factor lo hi cache)).
Proof. apply Term_new_cache_valid. trivial. Qed.

Lemma NumExprFilter_new_cache_valid (expr : string) (binds : list pyobj)
    (cache : term_cache) :
  cache_valid cache -> cache_valid (snd (NumExprFilter_new expr binds cache)).
Proof. apply Term_new_cache_valid. trivial. Qed.

Lemma SequencedFilter_new_cache_valid (first then_ : pyobj) (cache : term_cache) :
  cache_valid cache -> cache_valid (snd (SequencedFilter_new first then_ cache)).
Proof.
  intros Hcache. unfold SequencedFilter_new, bind, lift.
  destruct (getattr_inputs then_) as [then_inputs|e]; [|exact Hcache].
  apply Term_new_cache_valid; trivial.
Qed.

(** C3: with a term cache holding validated nodes only, constructing a
    PercentileFilter succeeds if and only if [0.0 <= min < max <= 100.0];
    otherwise (in particular when [max <= min], [min < 0] or [100 < max])
    it raises BadPercentileBounds carrying both bounds and interns
    nothing.  The check belongs to validation, which runs once: building
    the same filter again is a cache hit, and [compute_from_arrays] never
    raises BadPercentileBounds. *)
Theorem PercentileFilter_new_bounds (factor : pyobj) (lo hi : float64)
    (cache : term_cache) :
  cache_valid cache ->
  ((exists node cache', PercentileFilter_new factor lo hi cache = (Ok node, cache'))
   <-> bounds_well_formed lo hi)
  /\ (~ bounds_well_formed lo hi ->
      PercentileFilter_new factor lo hi cache
      = (Raise (BadPercentileBounds lo hi), cache))
  /\ (float_le hi lo = true \/ float_lt lo (float_of_Z 0) = true
      \/ float_lt (float_of_Z 100) hi = true ->
      ~ bounds_well_formed lo hi)
  /\ (forall node cache',
        PercentileFilter_new factor lo hi cache = (Ok node, cache') ->
        node = PercentileFilter [factor] lo hi
        /\ cache_valid cache'
        /\ PercentileFilter_new factor lo hi cache' = (Ok node, cache'))
  /\ (forall (ext : Externals) inputs arrays mask h e h',
        compute_from_arrays (PercentileFilter inputs lo hi) arrays mask h
        = (Raise e, h') ->
        forall a b, e <> BadPercentileBounds a b).
Proof.
  intros Hcache.
  unfold PercentileFilter_new, PercentileFilter_init.
  set (self := PercentileFilter [factor] lo hi).
  assert (Hhit : In self cache -> bounds_well_formed lo hi).
  { intros Hin. apply (PercentileFilter_validate_iff factor). exact (Hcache _ Hin). }
  split; [|split; [|split; [|split]]].
  - split.
    + intros (node & cache' & H).
      destruct (Term_new_cases self PercentileFilter_validate cache)
        as [[_ Hin]|[[_ [Hv _]]|[e [E _]]]].
      * now apply Hhit.
      * now apply (PercentileFilter_validate_iff factor).
      * rewrite E in H. discriminate H.
    + intros Hb. apply (PercentileFilter_validate_iff factor) in Hb.
      destruct (Term_new_valid self PercentileFilter_validate cache Hb)
        as [cache' [H _]].
      now exists self, cache'.
  - intros Hbad.
    destruct (Term_new_cases self PercentileFilter_validate cache)
      as [[_ Hin]|[[_ [Hv _]]|[e [E [Hv _]]]]].
    + now destruct Hbad; apply Hhit.
    + now destruct Hbad; apply (PercentileFilter_validate_iff factor).
    + rewrite E. unfold self in Hv.
      rewrite (PercentileFilter_validate_raises factor lo hi Hbad) in Hv.
      now injection Hv as <-.
  - intros Hout (p & q & -> & -> & H1 & H2 & H3). simpl in Hout.
    destruct Hout as [H|[H|H]].
    + apply Qle_bool_iff in H. now apply Qle_not_lt in H.
    + apply negb_true_iff in H.
      apply (proj2 (Qle_bool_iff (inject_Z 0) p)) in H1. congruence.
    + apply negb_true_iff in H.
      apply (proj2 (Qle_bool_iff q (inject_Z 100))) in H3. congruence.
  - intros node cache' H.
    destruct (Term_new_cases self PercentileFilter_validate cache)
      as [[E Hin]|[[E [Hv _]]|[e [E _]]]]; rewrite E in H; [| |discriminate H].
    + injection H as <- <-. split; [reflexivity|]. split; [exact Hcache|exact E].
    + injection H as <- <-. split; [reflexivity|]. split.
      * apply cache_valid_cons; [exact Hv | exact Hcache].
      * apply Term_new_hit. now left.
  - intros ext inputs arrays mask h e h' H a b ->.
    simpl in H. now apply PercentileFilter_compute_raises in H.
Qed.

Lemma PercentileFilter_new_bounds_witness :
  (exists node cache',
     PercentileFilter_new Sample.factor (float_of_Z 20) (float_of_Z 80) []
     = (Ok node, cache'))
  <-> bounds_well_formed (float_of_Z 20) (float_of_Z 80).
Proof.
  apply (PercentileFilter_new_bounds Sample.factor (float_of_Z 20) (float_of_Z 80) []).
  exact cache_valid_nil.
Defined.

(** ** Construction of SequencedFilter *)

(** C9: a SequencedFilter built from Filters [first] and [then] is
    constructed, and its inputs are the one-element tuple [(first,)]
    followed by [then.inputs] in their own order; nothing is
    deduplicated. *)
Theorem SequencedFilter_new_inputs (first then_ : pyobj) (cache : term_cache) :
  isinstance first Filter = true ->
  isinstance then_ Filter = true ->
  exists then_inputs node cache',
    getattr_inputs then_ = Ok then_inputs
    /\ SequencedFilter_new first then_ cache = (Ok node, cache')
    /\ node = SequencedFilter ([first] ++ then_inputs) then_
    /\ getattr_inputs node = Ok ([first] ++ then_inputs)
    /\ length ([first] ++ then_inputs) = S (length then_inputs).
Proof.
  intros Hfirst Hthen.
  assert (Hin : exists then_inputs, getattr_inputs then_ = Ok then_inputs).
  { destruct then_; simpl in *; try discriminate; eauto. }
  destruct Hin as [then_inputs Hin]. exists then_inputs.
  unfold SequencedFilter_new, bind, lift. rewrite Hin.
  unfold SequencedFilter_init, concat_tuples. simpl concat. rewrite app_nil_r.
  assert (Hv : SequencedFilter_validate (SequencedFilter (first :: then_inputs) then_)
               = Ok tt).
  { unfold SequencedFilter_validate.
    change ((first :: then_inputs) !! 0%nat) with (Some first). cbv iota beta.
    now rewrite Hfirst, Hthen. }
  destruct (Term_new_valid _ SequencedFilter_validate cache Hv) as [cache' [H _]].
  exists (SequencedFilter (first :: then_inputs) then_), cache'.
  repeat split; trivial.
Qed.

(** [f.then(f & g)]: [f] occurs twice among the inputs. *)
Lemma SequencedFilter_new_inputs_witness :
  exists then_inputs node cache',
    getattr_inputs Sample.f_and_g = Ok then_inputs
    /\ SequencedFilter_new Sample.f Sample.f_and_g [] = (Ok node, cache')
    /\ node = SequencedFilter ([Sample.f] ++ then_inputs) Sample.f_and_g
    /\ getattr_inputs node = Ok ([Sample.f] ++ then_inputs)
    /\ length ([Sample.f] ++ then_inputs) = S (length then_inputs).
Proof.
  apply (SequencedFilter_new_inputs Sample.f Sample.f_and_g []); reflexivity.
Defined.

(** X5: with a cache of validated nodes, when [then] is a term and an
    operand is no Filter, construction raises the TypeError of the
    validation hook naming the type of the first offending operand
    ([first] before [then]), and nothing is interned. *)
Lemma SequencedFilter_new_type_error (first then_ : pyobj) (cache : term_cache) :
  cache_valid cache ->
  isinstance then_ Term = true ->
  isinstance first Filter = false \/ isinstance then_ Filter = false ->
  SequencedFilter_new first then_ cache
  = (Raise (TypeError ("Expected Filter, got "
                       +:+ type_name (if isinstance first Filter then then_ else first))),
     cache).
Proof.
  intros Hcache Hterm Hbad.
  assert (Hin : exists then_inputs, getattr_inputs then_ = Ok then_inputs).
  { destruct then_; simpl in *; try discriminate; eauto. }
  destruct Hin as [then_inputs Hin].
  unfold SequencedFilter_new, bind, lift. rewrite Hin.
  unfold SequencedFilter_init, concat_tuples. simpl concat. rewrite app_nil_r.
  set (self := SequencedFilter (first :: then_inputs) then_).
  assert (Hv : SequencedFilter_validate self
               = Raise (TypeError ("Expected Filter, got "
                          +:+ type_name (if isinstance first Filter
                                         then then_ else first)))).
  { unfold self, SequencedFilter_validate.
    change ((first :: then_inputs) !! 0%nat) with (Some first). cbv iota beta.
    destruct (isinstance first Filter); cbn [negb]; [|reflexivity].
    destruct Hbad as [Hbad|Hbad]; [discriminate|]. now rewrite Hbad. }
  destruct (Term_new_cases self SequencedFilter_validate cache)
    as [[_ Hhit]|[[_ [Hok _]]|[e [E [He _]]]]].
  - apply Hcache in Hhit. unfold self in Hhit, Hv. congruence.
  - congruence.
  - rewrite E. congruence.
Qed.


(** C8 at [f.then(5)]: the second operand is no Filter, yet the failure
    is an AttributeError from reading [then.inputs], not the TypeError
    "Expected Filter, got int" of the validation hook; for a non-Filter
    first operand the hook does report the TypeError. *)
Theorem SequencedFilter_new_int_then :
  isinstance (PyInt 5) Filter = false
  /\ SequencedFilter_new Sample.f (PyInt 5) []
     = (Raise (AttributeError "'int' object has no attribute 'inputs'"), [])
  /\ SequencedFilter_new (PyInt 5) Sample.f []
     = (Raise (TypeError "Expected Filter, got int"), []).
Proof. repeat split. Qed.

(** ** Running array code on a store

    The store is written [h ++ t]: [h] is the caller's store, [t] the
    arrays allocated since. *)

Lemma lookup_old (h t : heap) (l : loc) (a : ndarray) :
  h !! l = Some a -> (h ++ t) !! l = Some a.
Proof. apply lookup_app_l_Some. Qed.

Lemma lookup_new (h t : heap) (k : nat) : (h ++ t) !! (length h + k)%nat = t !! k.
Proof. rewrite lookup_app_r by lia. f_equal. lia. Qed.

Lemma lookup_old_lt (h t : heap) (l : loc) :
  (l < length h)%nat -> (h ++ t) !! l = h !! l.
Proof. apply lookup_app_l. Qed.

Lemma bind_ret {S A B} (a : A) (k : A -> st S B) (s : S) : bind (ret a) k s = k a s.
Proof. reflexivity. Qed.

Lemma bind_lift {S A B} (r : result A) (k : A -> st S B) (s : S) :
  bind (lift r) k s = match r with Ok a => k a s | Raise e => (Raise e, s) end.
Proof. unfold bind, lift. now destruct r. Qed.

Lemma bind_load {B} (l : loc) (k : ndarray -> st heap B) (h : heap) (a : ndarray) :
  h !! l = Some a -> bind (load l) k h = k a h.
Proof. intros H. unfold bind, load. now rewrite H. Qed.

Lemma unop_at (f : ndarray -> result ndarray) (h t : heap) (l : loc) (x : ndarray) :
  (h ++ t) !! l = Some x ->
  unop f l (h ++ t)
  = match f x with
    | Ok r => (Ok (length h + length t)%nat, h ++ (t ++ [r]))
    | Raise e => (Raise e, h ++ t)
    end.
Proof.
  intros H. unfold unop. rewrite (bind_load _ _ _ _ H), bind_lift.
  destruct (f x); trivial. unfold alloc. now rewrite length_app, app_assoc.
Qed.

Lemma binop_at (f : ndarray -> ndarray -> result ndarray) (h t : heap)
    (l1 l2 : loc) (x y : ndarray) :
  (h ++ t) !! l1 = Some x -> (h ++ t) !! l2 = Some y ->
  binop f l1 l2 (h ++ t)
  = match f x y with
    | Ok r => (Ok (length h + length t)%nat, h ++ (t ++ [r]))
    | Raise e => (Raise e, h ++ t)
    end.
Proof.
  intros H1 H2. unfold binop.
  rewrite (bind_load _ _ _ _ H1), (bind_load _ _ _ _ H2), bind_lift.
  destruct (f x y); trivial. unfold alloc. now rewrite length_app, app_assoc.
Qed.

Lemma bind_unop_at {B} (f : ndarray -> result ndarray) (k : loc -> st heap B)
    (h t : heap) (l : loc) (x : ndarray) :
  (h ++ t) !! l = Some x ->
  bind (unop f l) k (h ++ t)
  = match f x with
    | Ok r => k (length h + length t)%nat (h ++ (t ++ [r]))
    | Raise e => (Raise e, h ++ t)
    end.
Proof.
  intros H. unfold bind at 1. rewrite (unop_at _ _ _ _ _ H). now destruct (f x).
Qed.

Lemma bind_binop_at {B} (f : ndarray -> ndarray -> result ndarray)
    (k : loc -> st heap B) (h t : heap) (l1 l2 : loc) (x y : ndarray) :
  (h ++ t) !! l1 = Some x -> (h ++ t) !! l2 = Some y ->
  bind (binop f l1 l2) k (h ++ t)
  = match f x y with
    | Ok r => k (length h + length t)%nat (h ++ (t ++ [r]))
    | Raise e => (Raise e, h ++ t)
    end.
Proof.
  intros H1 H2. unfold bind at 1. rewrite (binop_at _ _ _ _ _ _ _ H1 H2).
  now destruct (f x y).
Qed.

(** The in-place write goes to an array allocated since the call. *)
Lemma bind_setitem_at {B} (v : float64) (k : unit -> st heap B) (h t : heap)
    (n : nat) (l : loc) (d i : ndarray) :
  t !! n = Some d -> (h ++ t) !! l = Some i ->
  bind (setitem (length h + n)%nat l v) k (h ++ t)
  = match np_putmask v d i with
    | Ok r => k tt (h ++ <[n := r]> t)
    | Raise e => (Raise e, h ++ t)
    end.
Proof.
  intros Hd Hi. unfold bind at 1, setitem.
  assert (Hd' : (h ++ t) !! (length h + n)%nat = Some d) by now rewrite lookup_new.
  rewrite (bind_load _ _ _ _ Hd'), (bind_load _ _ _ _ Hi), bind_lift.
  destruct (np_putmask v d i); trivial.
  unfold store. now rewrite insert_app_r.
Qed.

Lemma bind_values_at {B} (k : loc -> st heap B) (h t : heap) (mask : loc)
    (frame : ndarray) :
  (h ++ t) !! mask = Some frame ->
  bind (values mask) k (h ++ t)
  = if zero_columns frame
    then k (length h + length t)%nat (h ++ (t ++ [np_values frame]))
    else k mask (h ++ t).
Proof.
  intros H. unfold bind at 1, values. rewrite (bind_load _ _ _ _ H).
  destruct (zero_columns frame); [|reflexivity].
  unfold alloc. now rewrite length_app, app_assoc.
Qed.

Lemma load_all_holds (h : heap) (ls : list loc) (vs : list ndarray) :
  holds h ls vs -> load_all ls h = (Ok vs, h).
Proof.
  induction 1 as [|l v ls vs Hl _ IH]; simpl; trivial.
  rewrite (bind_load _ _ _ _ Hl). unfold bind at 1. now rewrite IH.
Qed.

Lemma holds_ext (h t : heap) (ls : list loc) (vs : list ndarray) :
  holds h ls vs -> holds (h ++ t) ls vs.
Proof.
  intros H. eapply Forall2_impl; [exact H|]. intros l v. apply lookup_old.
Qed.

Section Run.
Context {ext : Externals}.

Ltac old_or_new :=
  first [ apply lookup_old; eassumption | rewrite lookup_new; reflexivity ].

Ltac stop := eexists; split; [reflexivity|reflexivity].

Lemma NumExprFilter_run (expr : string) (inputs : list pyobj)
    (arrays : list loc) (mask : loc) (h : heap) (vs : list ndarray) (m : ndarray) :
  holds h arrays vs -> h !! mask = Some m ->
  realises (compute_from_arrays (NumExprFilter expr inputs) arrays mask) h
           (array_result (NumExprFilter expr inputs) vs m).
Proof.
  intros Hvs Hm. unfold realises. cbn [compute_from_arrays array_result].
  unfold NumExprFilter_compute_from_arrays, NumericalExpression_compute_from_arrays.
  unfold bind at 1 2. rewrite (load_all_holds _ _ _ Hvs).
  rewrite (bind_load _ _ _ _ Hm), bind_lift.
  destruct (numexpr_evaluate expr vs (ndarray_shape m)) as [raw|e]; cbn [result_bind].
  2: { exists []. now rewrite app_nil_r. }
  unfold alloc, and_.
  rewrite (binop_at np_and h [BoolArray raw] (length h) mask (BoolArray raw) m).
  - destruct (np_and (BoolArray raw) m) as [v|e].
    + eexists. split; [reflexivity|]. eexists. split; [reflexivity|].
      now rewrite lookup_new.
    + stop.
  - rewrite <- (Nat.add_0_r (length h)). now rewrite lookup_new.
  - now apply lookup_old.
Qed.

Lemma PercentileFilter_run (inputs : list pyobj) (lo hi : float64)
    (arrays : list loc) (mask : loc) (h : heap) (vs : list ndarray) (m : ndarray) :
  holds h arrays vs -> h !! mask = Some m ->
  realises (compute_from_arrays (PercentileFilter inputs lo hi) arrays mask) h
           (array_result (PercentileFilter inputs lo hi) vs m).
Proof.
  intros Hvs Hm. unfold realises. cbn [compute_from_arrays].
  unfold PercentileFilter_compute_from_arrays, getitem.
  destruct Hvs as [|a0 x arrays vs Ha0 _]; cbn [array_result].
  { exists []. now rewrite app_nil_r. }
  change ((a0 :: arrays) !! 0%nat) with (Some a0). cbv iota. rewrite bind_ret.
  match goal with |- context [?c h] =>
    assert (E : c h = c (h ++ [])) by now rewrite app_nil_r end.
  rewrite E; clear E.
  unfold astype_float64, invert, nanpercentile, less_equal, and_, result_bind.
  erewrite bind_unop_at by old_or_new. unfold np_astype_float64.
  erewrite bind_values_at by old_or_new. unfold np_values.
  destruct (zero_columns m).
  { cbn [app length]. erewrite bind_unop_at by old_or_new. cbn [np_invert]. stop. }
  erewrite bind_unop_at by old_or_new.
  destruct (np_invert m) as [idx|e]; [|stop].
  erewrite bind_setitem_at; [|reflexivity|old_or_new].
  destruct (np_putmask nan (FloatArray (as_float x)) idx) as [data|e]; [|stop].
  cbn [app length Nat.add insert list_insert].
  erewrite bind_unop_at by old_or_new. unfold np_nanpercentile.
  erewrite bind_unop_at by old_or_new.
  cbn [app length].
  erewrite bind_binop_at by old_or_new.
  match goal with |- context [np_less_equal ?a ?b] =>
    destruct (np_less_equal a b) as [below|e]; [|stop] end.
  cbn [app length].
  erewrite bind_binop_at by old_or_new.
  match goal with |- context [np_less_equal ?a ?b] =>
    destruct (np_less_equal a b) as [above|e]; [|stop] end.
  cbn [app length].
  erewrite binop_at by old_or_new.
  destruct (np_and below above) as [v|e]; [|stop].
  eexists. split; [reflexivity|]. eexists. split; [reflexivity|].
  now rewrite lookup_new.
Qed.

Lemma compute_from_arrays_run (self : pyobj) :
  defined_here self = true ->
  forall (arrays : list loc) (mask : loc) (h : heap) (vs : list ndarray) (m : ndarray),
    holds h arrays vs -> h !! mask = Some m ->
    realises (compute_from_arrays self arrays mask) h (array_result self vs m).
Proof.
  induction self as [| | | | |c xs _|e xs _|xs lo hi _|xs t _ IHt]
    using pyobj_nested_ind; cbn [defined_here]; try discriminate.
  - intros _ arrays mask h vs m. apply NumExprFilter_run.
  - intros _ arrays mask h vs m. apply PercentileFilter_run.
  - intros Hdef arrays mask h vs m Hvs Hm. unfold realises.
    cbn [compute_from_arrays array_result].
    unfold SequencedFilter_compute_from_arrays, getitem.
    destruct Hvs as [|a0 x arrays vs Ha0 Hrest].
    { exists []. now rewrite app_nil_r. }
    change ((a0 :: arrays) !! 0%nat) with (Some a0). cbv iota. rewrite bind_ret.
    change (drop 1 (a0 :: arrays)) with arrays.
    match goal with |- context [?c h] =>
      assert (E : c h = c (h ++ [])) by now rewrite app_nil_r end.
    rewrite E; clear E. unfold and_, result_bind.
    erewrite bind_binop_at by old_or_new.
    destruct (np_and m x) as [narrowed|e]; [|stop].
    cbn [app length].
    destruct (IHt Hdef arrays (length h + 0)%nat (h ++ [narrowed]) vs narrowed)
      as [t' Ht'].
    + now apply holds_ext.
    + now rewrite lookup_new.
    + exists ([narrowed] ++ t').
      destruct (compute_from_arrays t arrays (length h + 0)%nat (h ++ [narrowed]))
        as [[l|e] h'].
      * destruct Ht' as [E Hv]. split; [|exact Hv]. now rewrite E, <- app_assoc.
      * destruct Ht' as [E Hv]. split; [|exact Hv]. now rewrite E, <- app_assoc.
Qed.

End Run.

(** ** Arrays of one shape *)

Lemma all2_length {A B} (f : A -> B -> bool) (xs : list A) (ys : list B) :
  all2 f xs ys = true -> length xs = length ys.
Proof.
  revert ys. induction xs as [|x xs IH]; intros [|y ys]; simpl; try discriminate; trivial.
  intros H. apply andb_true_iff in H as [_ H]. f_equal. now apply IH.
Qed.

Lemma broadcast_row_same {A B C} (f : A -> B -> C) (r : list A) (s : list B) :
  length r = length s -> broadcast_row f r s = Ok (zip_with f r s).
Proof. intros H. unfold broadcast_row. now rewrite H, Nat.eqb_refl. Qed.

Lemma sequence_rows_same {A B C} (f : A -> B -> C) (a : matrix A) (b : matrix B) :
  same_shape a b = true ->
  sequence (zip_with (broadcast_row f) a b) = Ok (zip_with (zip_with f) a b).
Proof.
  unfold same_shape. revert b.
  induction a as [|r a IH]; intros [|s b]; simpl; try discriminate; trivial.
  intros H. apply andb_true_iff in H as [Hr H]. apply Nat.eqb_eq in Hr.
  now rewrite (broadcast_row_same f r s Hr), (IH b H).
Qed.

Lemma broadcast_same_shape {A B C} (f : A -> B -> C) (a : matrix A) (b : matrix B) :
  same_shape a b = true -> broadcast f a b = Ok (zip_with (zip_with f) a b).
Proof.
  intros H. unfold broadcast.
  rewrite (all2_length _ _ _ H), Nat.eqb_refl. now apply sequence_rows_same.
Qed.

Lemma lookup_map {A B} (f : A -> B) (l : list A) (i : nat) :
  map f l !! i = option_map f (l !! i).
Proof. revert i. induction l as [|x l IH]; intros [|i]; simpl; trivial. Qed.

Lemma lookup_zip_with_both {A B C} (f : A -> B -> C) (l : list A) (k : list B) (i : nat) :
  zip_with f l k !! i
  = match l !! i, k !! i with Some x, Some y => Some (f x y) | _, _ => None end.
Proof.
  revert k i. induction l as [|x l IH]; intros [|y k] [|i]; simpl; trivial;
    try (now destruct (l !! i)).
Qed.

Lemma get_zip_with {A B C} (f : A -> B -> C) (a : matrix A) (b : matrix B) (i j : nat) :
  get (zip_with (zip_with f) a b) i j
  = match get a i j, get b i j with Some x, Some y => Some (f x y) | _, _ => None end.
Proof.
  unfold get. rewrite lookup_zip_with_both.
  destruct (a !! i) as [r|], (b !! i) as [s|]; trivial.
  - apply lookup_zip_with_both.
  - now destruct (r !! j).
Qed.

Lemma same_shape_get {A B} (a : matrix A) (b : matrix B) (i j : nat) (y : B) :
  same_shape a b = true -> get b i j = Some y -> exists x, get a i j = Some x.
Proof.
  unfold same_shape, get. revert b i.
  induction a as [|r a IH]; intros [|s b] i; simpl; try discriminate.
  intros H. apply andb_true_iff in H as [Hr H]. apply Nat.eqb_eq in Hr.
  destruct i as [|i]; simpl.
  - intros Hy. apply lookup_lt_Some in Hy. rewrite <- Hr in Hy.
    destruct (lookup_lt_is_Some_2 r j Hy) as [x Hx]. now exists x.
  - now apply IH.
Qed.

Lemma same_shape_negb {A} (d : matrix A) (m : matrix bool) :
  same_shape d (map (map negb) m) = same_shape d m.
Proof.
  unfold same_shape. revert m.
  induction d as [|r d IH]; intros [|s m]; simpl; trivial.
  now rewrite length_map, IH.
Qed.

Lemma masked_invert (d : matrix float64) (m : matrix bool) :
  zip_with (zip_with (fun x (b : bool) => if b then nan else x)) d (map (map negb) m)
  = masked d m.
Proof.
  unfold masked. revert m.
  induction d as [|r d IH]; intros [|s m]; simpl; trivial.
  rewrite IH. f_equal. unfold masked_row. clear.
  revert s. induction r as [|x r IH]; intros [|b s]; simpl; trivial.
  rewrite IH. now destruct b.
Qed.

(** A column of per-row bounds against the rows they were taken from. *)
Lemma broadcast_column_left {A C} (f : A -> A -> C) (p : list A -> A) (d : matrix A) :
  broadcast f (map (fun row => [p row]) d) d
  = Ok (map (fun row => map (f (p row)) row) d).
Proof.
  unfold broadcast. rewrite length_map, Nat.eqb_refl.
  induction d as [|r d IH]; simpl; trivial.
  rewrite IH.
  replace (broadcast_row f [p r] r) with (Ok (map (f (p r)) r)); trivial.
  unfold broadcast_row. destruct r as [|x [|x' r]]; reflexivity.
Qed.

Lemma broadcast_column_right {A C} (f : A -> A -> C) (p : list A -> A) (d : matrix A) :
  broadcast f d (map (fun row => [p row]) d)
  = Ok (map (fun row => map (fun x => f x (p row)) row) d).
Proof.
  unfold broadcast. rewrite length_map, Nat.eqb_refl.
  induction d as [|r d IH]; simpl; trivial.
  rewrite IH.
  replace (broadcast_row f r [p r])
    with (Ok (map (fun x => f x (p r)) r)); trivial.
  unfold broadcast_row. destruct r as [|x [|x' r]]; reflexivity.
Qed.

Lemma broadcast_rowwise {A} (f g : list A -> A -> bool) (d : matrix A) :
  broadcast andb (map (fun row => map (f row) row) d)
                 (map (fun row => map (g row) row) d)
  = Ok (map (fun row => map (fun x => f row x && g row x) row) d).
Proof.
  rewrite broadcast_same_shape.
  - f_equal. induction d as [|r d IH]; simpl; trivial. rewrite IH. f_equal.
    clear. generalize (f r), (g r). intros f0 g0.
    induction r as [|x r IH]; simpl; trivial. now rewrite IH.
  - unfold same_shape. induction d as [|r d IH]; simpl; trivial.
    now rewrite !length_map, Nat.eqb_refl, IH.
Qed.

Lemma float_le_nan_r (a : float64) : float_le a nan = false.
Proof. now destruct a. Qed.

Lemma float_le_nan_l (a : float64) : float_le nan a = false.
Proof. now destruct a. Qed.


(** ** compute_from_arrays *)

Section Compute.
Context {ext : Externals}.

Lemma realises_Ok (c : st heap loc) (h : heap) (v : ndarray) :
  realises c h (Ok v) ->
  exists l t, c h = (Ok l, h ++ t) /\ (h ++ t) !! l = Some v.
Proof.
  intros [t H]. destruct (c h) as [[l|e] h'].
  - destruct H as [-> [v' [E Hv]]]. injection E as <-. now exists l, t.
  - destruct H as [_ E]. discriminate E.
Qed.

(** C1: when the raw numexpr evaluation of the bound expression over the
    input arrays gives [raw] and the mask has the shape of [raw],
    [compute_from_arrays] of a NumExprFilter returns a new array holding
    the elementwise AND of [raw] with the mask; wherever the mask is false
    the result is false, whatever [raw] holds there. *)
Theorem NumExprFilter_compute_from_arrays_masks (expr : string) (inputs : list pyobj)
    (arrays : list loc) (mask : loc) (h : heap) (vs : list ndarray)
    (m raw : matrix bool) :
  holds h arrays vs ->
  h !! mask = Some (BoolArray m) ->
  numexpr_evaluate expr vs (shape m) = Ok raw ->
  same_shape raw m = true ->
  exists l h',
    compute_from_arrays (NumExprFilter expr inputs) arrays mask h = (Ok l, h')
    /\ h' !! l = Some (BoolArray (zip_with (zip_with andb) raw m))
    /\ (forall i j,
          get (zip_with (zip_with andb) raw m) i j
          = match get raw i j, get m i j with
            | Some x, Some y => Some (x && y)
            | _, _ => None
            end)
    /\ (forall i j,
          get m i j = Some false ->
          get (zip_with (zip_with andb) raw m) i j = Some false).
Proof.
  intros Hvs Hm Hraw Hshape.
  pose proof (NumExprFilter_run expr inputs arrays mask h vs (BoolArray m) Hvs Hm) as Hrun.
  cbn [array_result ndarray_shape] in Hrun. rewrite Hraw in Hrun.
  cbn [result_bind np_and] in Hrun.
  rewrite (broadcast_same_shape andb raw m Hshape) in Hrun. cbn [result_map] in Hrun.
  apply realises_Ok in Hrun as (l & t & Hrun & Hl).
  exists l, (h ++ t). split; [exact Hrun|]. split; [exact Hl|]. split.
  - intros i j. apply get_zip_with.
  - intros i j Hfalse. rewrite get_zip_with, Hfalse.
    destruct (same_shape_get raw m i j false Hshape Hfalse) as [x ->].
    now rewrite andb_false_r.
Qed.

Lemma bind_binop {B} (f : ndarray -> ndarray -> result ndarray)
    (k : loc -> st heap B) (h : heap) (l1 l2 : loc) (x y : ndarray) :
  h !! l1 = Some x -> h !! l2 = Some y ->
  bind (binop f l1 l2) k h
  = match f x y with
    | Ok r => k (length h) (h ++ [r])
    | Raise e => (Raise e, h)
    end.
Proof.
  intros H1 H2. unfold bind at 1, binop.
  rewrite (bind_load _ _ _ _ H1), (bind_load _ _ _ _ H2), bind_lift.
  now destruct (f x y).
Qed.

(** C2: with [first_result = arrays[0]] the boolean result of the first
    filter, [compute_from_arrays] of a SequencedFilter is the call of
    [then.compute_from_arrays] on the remaining arrays [arrays[1:]] and on
    a new mask that is, entity by entity, [mask AND first_result]; the
    outcome of that call is the outcome of the whole, unchanged. *)
Theorem SequencedFilter_compute_from_arrays_narrows (inputs : list pyobj)
    (then_ : pyobj) (arrays : list loc) (mask first_result : loc) (h : heap)
    (m f : matrix bool) :
  arrays !! 0%nat = Some first_result ->
  h !! first_result = Some (BoolArray f) ->
  h !! mask = Some (BoolArray m) ->
  same_shape m f = true ->
  let narrowed := zip_with (zip_with andb) m f in
  compute_from_arrays (SequencedFilter inputs then_) arrays mask h
  = compute_from_arrays then_ (drop 1 arrays) (length h) (h ++ [BoolArray narrowed])
  /\ (h ++ [BoolArray narrowed]) !! length h = Some (BoolArray narrowed)
  /\ (forall i j,
        get narrowed i j
        = match get m i j, get f i j with
          | Some x, Some y => Some (x && y)
          | _, _ => None
          end).
Proof.
  intros Harr Hf Hm Hshape narrowed. split; [|split].
  - cbn [compute_from_arrays].
    unfold SequencedFilter_compute_from_arrays, getitem. rewrite Harr, bind_ret.
    unfold and_. rewrite (bind_binop _ _ _ _ _ _ _ Hm Hf).
    cbn [np_and]. now rewrite (broadcast_same_shape andb m f Hshape).
  - rewrite <- (Nat.add_0_r (length h)). now rewrite lookup_new.
  - intros i j. apply get_zip_with.
Qed.

Lemma PercentileFilter_array_result (inputs : list pyobj) (lo hi : float64)
    (x : ndarray) (m : matrix bool) (rest : list ndarray) :
  same_shape (as_float x) m = true ->
  zero_columns (BoolArray m) = false ->
  array_result (PercentileFilter inputs lo hi) (x :: rest) (BoolArray m)
  = Ok (BoolArray
          (map (fun row =>
                  map (fun v => float_le (nanpercentile_row row lo) v
                                && float_le v (nanpercentile_row row hi)) row)
               (masked (as_float x) m))).
Proof.
  intros Hshape Hcols. cbn [array_result].
  unfold np_astype_float64, np_values. rewrite Hcols.
  cbn [result_bind np_invert np_putmask].
  rewrite same_shape_negb, Hshape, masked_invert.
  unfold np_nanpercentile. cbn [result_bind as_float].
  unfold np_less_equal. cbn [as_float].
  rewrite (broadcast_column_left float_le (fun row => nanpercentile_row row lo)).
  rewrite (broadcast_column_right float_le (fun row => nanpercentile_row row hi)).
  cbn [result_map result_bind np_and].
  now rewrite (broadcast_rowwise
                 (fun row v => float_le (nanpercentile_row row lo) v)
                 (fun row v => float_le v (nanpercentile_row row hi))).
Qed.

(** On a panel without columns the inversion of [mask.values] is refused. *)
Lemma PercentileFilter_array_result_no_columns (inputs : list pyobj) (lo hi : float64)
    (x mask : ndarray) (rest : list ndarray) :
  zero_columns mask = true ->
  array_result (PercentileFilter inputs lo hi) (x :: rest) mask
  = Raise (TypeError "ufunc 'invert' not supported for the input types").
Proof.
  intros Hcols. cbn [array_result].
  unfold np_astype_float64, np_values. now rewrite Hcols.
Qed.


Lemma array_result_bool (self : pyobj) :
  defined_here self = true ->
  forall (vs : list ndarray) (m v : ndarray),
    array_result self vs m = Ok v -> exists b, v = BoolArray b.
Proof.
  assert (Hand : forall a b v, np_and a b = Ok v -> exists r, v = BoolArray r).
  { intros [a|a] [b|b] v; cbn [np_and]; try discriminate.
    destruct (broadcast andb a b) as [r|e]; cbn [result_map]; [|discriminate].
    intros H. injection H as <-. now exists r. }
  induction self as [| | | | |c xs _|e xs _|xs lo hi _|xs t _ IHt]
    using pyobj_nested_ind; cbn [defined_here]; try discriminate.
  - intros _ vs m v. cbn [array_result]. unfold result_bind.
    destruct (numexpr_evaluate e vs (ndarray_shape m)); [apply Hand|discriminate].
  - intros _ vs m v. cbn [array_result]. destruct vs as [|a0 vs]; [discriminate|].
    unfold result_bind.
    repeat match goal with
           | |- match ?r with Ok _ => _ | Raise _ => _ end = _ -> _ =>
               destruct r; [|discriminate]
           end.
    apply Hand.
  - intros Hdef vs m v. cbn [array_result]. destruct vs as [|a0 vs]; [discriminate|].
    unfold result_bind. destruct (np_and m a0); [|discriminate]. now apply IHt.
Qed.

(** C10: for a filter whose [compute_from_arrays] is defined in this
    module, a call leaves every array of the caller's store as it was
    (the input arrays and the mask among them: the NaN sentinels of
    PercentileFilter go to an array allocated during the call), and two
    calls on arguments with the same contents, in whatever stores, end the
    same way: the same exception, or boolean arrays with identical
    contents. *)
Theorem compute_from_arrays_pure (self : pyobj) (arrays : list loc) (mask : loc)
    (h : heap) (vs : list ndarray) (m : ndarray) :
  defined_here self = true ->
  holds h arrays vs ->
  h !! mask = Some m ->
  (forall l, (l < length h)%nat ->
     snd (compute_from_arrays self arrays mask h) !! l = h !! l)
  /\ holds (snd (compute_from_arrays self arrays mask h)) arrays vs
  /\ snd (compute_from_arrays self arrays mask h) !! mask = Some m
  /\ (forall l h', compute_from_arrays self arrays mask h = (Ok l, h') ->
        exists b, h' !! l = Some (BoolArray b))
  /\ (forall (h2 : heap) (arrays2 : list loc) (mask2 : loc),
        holds h2 arrays2 vs -> h2 !! mask2 = Some m ->
        same_outcome (compute_from_arrays self arrays mask h)
                     (compute_from_arrays self arrays2 mask2 h2)).
Proof.
  intros Hdef Hvs Hm.
  pose proof (compute_from_arrays_run self Hdef arrays mask h vs m Hvs Hm) as [t Hrun].
  assert (Hframe : snd (compute_from_arrays self arrays mask h) = h ++ t).
  { destruct (compute_from_arrays self arrays mask h) as [[l|e] h'];
      now destruct Hrun as [-> _]. }
  split; [|split; [|split; [|split]]].
  - intros l Hl. rewrite Hframe. now apply lookup_old_lt.
  - rewrite Hframe. now apply holds_ext.
  - rewrite Hframe. now apply lookup_old.
  - intros l h' E. rewrite E in Hrun. destruct Hrun as [_ [v [Hv Hl]]].
    destruct (array_result_bool self Hdef vs m v Hv) as [b ->]. now exists b.
  - intros h2 arrays2 mask2 Hvs2 Hm2.
    pose proof (compute_from_arrays_run self Hdef arrays2 mask2 h2 vs m Hvs2 Hm2)
      as [t2 Hrun2].
    unfold same_outcome.
    destruct (compute_from_arrays self arrays mask h) as [[l|e] h'],
             (compute_from_arrays self arrays2 mask2 h2) as [[l2|e2] h2'].
    + destruct Hrun as [_ [v [E Hv]]], Hrun2 as [_ [v2 [E2 Hv2]]].
      rewrite E in E2. injection E2 as <-. rewrite Hv, Hv2. split; [eauto|trivial].
    + destruct Hrun as [_ [v [E Hv]]], Hrun2 as [_ E2]. congruence.
    + destruct Hrun as [_ E], Hrun2 as [_ [v2 [E2 Hv2]]]. congruence.
    + destruct Hrun as [_ E], Hrun2 as [_ E2]. congruence.
Qed.

End Compute.

(** ** The model on concrete inputs *)



Lemma NumExprFilter_compute_from_arrays_masks_witness :
  exists l h',
    compute_from_arrays (ext := Sample.ext) Sample.f_and_g [0; 1]%nat 2%nat Sample.store0
    = (Ok l, h')
    /\ h' !! l = Some (BoolArray (zip_with (zip_with andb)
                                          [[true; false; false]] [[true; false; true]]))
    /\ (forall i j,
          get (zip_with (zip_with andb) [[true; false; false]] [[true; false; true]]) i j
          = match get [[true; false; false]] i j, get [[true; false; true]] i j with
            | Some x, Some y => Some (x && y)
            | _, _ => None
            end)
    /\ (forall i j,
          get [[true; false; true]] i j = Some false ->
          get (zip_with (zip_with andb) [[true; false; false]] [[true; false; true]]) i j
          = Some false).
Proof.
  apply (NumExprFilter_compute_from_arrays_masks (ext := Sample.ext)
           "x_0 & x_1" [Sample.f; Sample.g] [0; 1]%nat 2%nat Sample.store0
           [BoolArray [[true; false; true]]; BoolArray [[true; true; false]]]
           [[true; false; true]] [[true; false; false]]).
  - repeat constructor.
  - reflexivity.
  - reflexivity.
  - reflexivity.
Defined.

Lemma SequencedFilter_compute_from_arrays_narrows_witness :
  compute_from_arrays (ext := Sample.ext)
    (SequencedFilter [Sample.f; Sample.g] (NumExprFilter "x_0 & x_0" [Sample.g]))
    [0; 1]%nat 2%nat Sample.store0
  = compute_from_arrays (ext := Sample.ext) (NumExprFilter "x_0 & x_0" [Sample.g])
      [1%nat] 6%nat (Sample.store0 ++ [BoolArray [[true; false; true]]]).
Proof.
  apply (SequencedFilter_compute_from_arrays_narrows (ext := Sample.ext)
           [Sample.f; Sample.g] (NumExprFilter "x_0 & x_0" [Sample.g])
           [0; 1]%nat 2%nat 0%nat Sample.store0
           [[true; false; true]] [[true; false; true]]); reflexivity.
Defined.



Lemma compute_from_arrays_pure_witness :
  let self := SequencedFilter [Sample.f; Sample.factor]
                (PercentileFilter [Sample.factor] (float_of_Z 20) (float_of_Z 80)) in
  let vs := [BoolArray [[true; true; false; true; true]];
             FloatArray [Sample.floats [10; 20; 30; 40; 50]%Z]] in
  let m := BoolArray [[true; true; true; true; true]] in
  let after := snd (compute_from_arrays (ext := Sample.ext) self [5; 3]%nat 4%nat
                      Sample.store0) in
  (forall l, (l < length Sample.store0)%nat -> after !! l = Sample.store0 !! l)
  /\ holds after [5; 3]%nat vs
  /\ after !! 4%nat = Some m
  /\ (forall l h',
        compute_from_arrays (ext := Sample.ext) self [5; 3]%nat 4%nat Sample.store0
        = (Ok l, h') ->
        exists b, h' !! l = Some (BoolArray b))
  /\ (forall (h2 : heap) (arrays2 : list loc) (mask2 : loc),
        holds h2 arrays2 vs -> h2 !! mask2 = Some m ->
        same_outcome
          (compute_from_arrays (ext := Sample.ext) self [5; 3]%nat 4%nat Sample.store0)
          (compute_from_arrays (ext := Sample.ext) self arrays2 mask2 h2)).
Proof.
  intros self vs m after.
  apply (compute_from_arrays_pure (ext := Sample.ext) self [5; 3]%nat 4%nat
           Sample.store0 vs m).
  - reflexivity.
  - repeat constructor.
  - reflexivity.
Defined.

(** The scenario of the specification: one row [10, 20, 30, 40, 50], all
    valid, bounds at the 20th and 80th percentiles (18 and 42 by linear
    interpolation): the middle three pass. *)
Example PercentileFilter_scenario :
  array_result (ext := Sample.ext)
    (PercentileFilter [Sample.factor] (float_of_Z 20) (float_of_Z 80))
    [FloatArray [Sample.floats [10; 20; 30; 40; 50]%Z]]
    (BoolArray [[true; true; true; true; true]])
  = Ok (BoolArray [[false; true; true; true; false]])
  /\ fst (compute_from_arrays (ext := Sample.ext)
            (PercentileFilter [Sample.factor] (float_of_Z 20) (float_of_Z 80))
            [3%nat] 4%nat Sample.store0) = Ok 12%nat.
Proof. split; vm_compute; reflexivity. Qed.

(** With the third entity masked out the bounds move (16 and 44) and
    that entity fails. *)
Example PercentileFilter_scenario_masked :
  array_result (ext := Sample.ext)
    (PercentileFilter [Sample.factor] (float_of_Z 20) (float_of_Z 80))
    [FloatArray [Sample.floats [10; 20; 30; 40; 50]%Z]]
    (BoolArray [[true; true; false; true; true]])
  = Ok (BoolArray [[false; true; false; true; false]]).
Proof. vm_compute; reflexivity. Qed.

(** [f.then(g)] with [f] yielding [True, False, True]: the second filter
    runs under the mask [True, False, True] and fails the middle entity. *)
Example SequencedFilter_scenario :
  array_result (ext := Sample.ext)
    (SequencedFilter [Sample.f; Sample.g] (NumExprFilter "x_0 | x_0" [Sample.g]))
    [BoolArray [[true; false; true]]; BoolArray [[true; true; true]]]
    (BoolArray [[true; true; true]])
  = Ok (BoolArray [[true; false; true]]).
Proof. vm_compute; reflexivity. Qed.

(** * Further properties of the module *)

(** ** The remaining branches of the dispatch routine *)

Section DispatchBranches.
Context {ext : Externals}.

(** X1: an operand that is neither a NumericalExpression, nor a Filter,
    nor an integer or boolean is refused: the routine raises
    BadBinaryOperator carrying the operator and both operands, and builds
    no node. *)
Theorem binary_operator_unsupported (op : string) (self other : pyobj)
    (cache : term_cache) :
  isinstance self NumericalExpression = false ->
  isinstance other NumericalExpression = false ->
  isinstance other Filter = false ->
  isinstance other int = false ->
  binary_operator op self other cache = (Raise (BadBinaryOperator op self other), cache).
Proof.
  intros Hs Ho Hf Hi. unfold binary_operator. now rewrite Hs, Ho, Hf, Hi.
Qed.

(** X2: when the left operand is a NumericalExpression, whatever the
    right operand is, the routine defers to [build_binary_op]: an
    exception of the merge is passed on with no node built, and a merge
    [(left, right, inputs)] yields the NumExprFilter
    [(<left>) <op> (<right>)] over the merged inputs. *)
Theorem binary_operator_expression_branch (op : string) (self other : pyobj)
    (cache : term_cache) :
  isinstance self NumericalExpression = true ->
  match build_binary_op self op other with
  | Raise e => binary_operator op self other cache = (Raise e, cache)
  | Ok (self_expr, other_expr, new_inputs) =>
      exists cache',
        binary_operator op self other cache
        = (Ok (NumExprFilter
                 ("(" +:+ self_expr +:+ ") " +:+ op +:+ " (" +:+ other_expr +:+ ")")
                 new_inputs), cache')
  end.
Proof.
  intros Hs. unfold binary_operator. rewrite Hs. rewrite bind_lift.
  destruct (build_binary_op self op other) as [[[se oe] ni]|e]; [|reflexivity].
  apply NumExprFilter_new_ok.
Qed.

End DispatchBranches.

Lemma binary_operator_unsupported_witness :
  binary_operator (ext := Sample.ext) "|" Sample.f (PyFloat nan) []
  = (Raise (BadBinaryOperator "|" Sample.f (PyFloat nan)), []).
Proof.
  apply (binary_operator_unsupported (ext := Sample.ext) "|" Sample.f (PyFloat nan) []);
    reflexivity.
Defined.

Lemma binary_operator_expression_branch_witness :
  exists cache',
    binary_operator (ext := Sample.ext) "&" Sample.f_and_g Sample.f []
    = (Ok (NumExprFilter "(x_0 & x_1) & (x_0)" [Sample.f; Sample.g]), cache').
Proof.
  apply (binary_operator_expression_branch (ext := Sample.ext)
           "&" Sample.f_and_g Sample.f []).
  reflexivity.
Defined.

(** ** Construction: outcomes of SequencedFilter and bounds of PercentileFilter *)



(** X4: with a cache of validated nodes, a SequencedFilter that is
    returned has Filters for both operands and stores [first] followed by
    the inputs of [then]: no ill-formed sequence is ever handed out. *)
Theorem SequencedFilter_new_returns_filters (first then_ node : pyobj)
    (cache cache' : term_cache) :
  cache_valid cache ->
  SequencedFilter_new first then_ cache = (Ok node, cache') ->
  isinstance first Filter = true
  /\ isinstance then_ Filter = true
  /\ exists then_inputs,
       getattr_inputs then_ = Ok then_inputs
       /\ node = SequencedFilter (first :: then_inputs) then_
       /\ In node cache'.
Proof.
  intros Hcache. unfold SequencedFilter_new. rewrite bind_lift.
  destruct (getattr_inputs then_) as [then_inputs|e0] eqn:Hin; [|discriminate].
  unfold SequencedFilter_init, concat_tuples. simpl concat. rewrite app_nil_r.
  set (self := SequencedFilter (first :: then_inputs) then_).
  assert (Hvalid : SequencedFilter_validate self = Ok tt ->
                   isinstance first Filter = true /\ isinstance then_ Filter = true).
  { unfold self, SequencedFilter_validate.
    change ((first :: then_inputs) !! 0%nat) with (Some first). cbv iota beta.
    destruct (isinstance first Filter); cbn [negb]; [|discriminate].
    destruct (isinstance then_ Filter); cbn [negb]; [auto|discriminate]. }
  destruct (Term_new_cases self SequencedFilter_validate cache)
    as [[E Hhit]|[[E [Hv _]]|[e0 [E _]]]]; rewrite E; try discriminate;
    intros H; injection H as <- <-.
  - destruct (Hvalid (Hcache _ Hhit)) as [H1 H2].
    split; [exact H1|]. split; [exact H2|]. exists then_inputs. auto.
  - destruct (Hvalid Hv) as [H1 H2].
    split; [exact H1|]. split; [exact H2|]. exists then_inputs.
    split; [reflexivity|]. split; [reflexivity|]. now left.
Qed.

Lemma SequencedFilter_new_returns_filters_witness :
  isinstance Sample.f Filter = true /\ isinstance Sample.g Filter = true.
Proof.
  destruct (SequencedFilter_new_returns_filters Sample.f Sample.g
              (SequencedFilter [Sample.f; Sample.factor] Sample.g) []
              [SequencedFilter [Sample.f; Sample.factor] Sample.g])
    as (H1 & H2 & _).
  - exact cache_valid_nil.
  - reflexivity.
  - split; [exact H1 | exact H2].
Defined.

Lemma SequencedFilter_new_type_error_witness :
  SequencedFilter_new (PyStr "close") Sample.factor []
  = (Raise (TypeError "Expected Filter, got str"), []).
Proof.
  apply (SequencedFilter_new_type_error (PyStr "close") Sample.factor []).
  - exact cache_valid_nil.
  - reflexivity.
  - left. reflexivity.
Defined.

(** X6: the bounds check is inclusive at both ends and strict in the
    middle, and no bound may be NaN: [(0, 100)] passes, equal bounds are
    refused whatever their value, and so is a NaN on either side. *)
Theorem PercentileFilter_validate_edges (factor : pyobj) (inputs : list pyobj) :
  PercentileFilter_validate
    (PercentileFilter [factor] (float_of_Z 0) (float_of_Z 100)) = Ok tt
  /\ (forall p, PercentileFilter_validate (PercentileFilter inputs p p)
                = Raise (BadPercentileBounds p p))
  /\ (forall x, PercentileFilter_validate (PercentileFilter inputs nan x)
                = Raise (BadPercentileBounds nan x))
  /\ (forall x, PercentileFilter_validate (PercentileFilter inputs x nan)
                = Raise (BadPercentileBounds x nan)).
Proof.
  split; [reflexivity|]. split; [|split].
  - intros p. unfold PercentileFilter_validate.
    assert (H : float_lt p p = false).
    { destruct p as [q| | |]; simpl; trivial.
      apply negb_false_iff, Qle_bool_iff, Qle_refl. }
    now rewrite H, andb_false_r.
  - intros x. unfold PercentileFilter_validate.
    now rewrite float_le_nan_r.
  - intros x. unfold PercentileFilter_validate.
    now rewrite float_le_nan_l, andb_false_r.
Qed.

(** ** Shapes *)

Lemma same_shape_lengths {A B} (a : matrix A) (b : matrix B) :
  same_shape a b = true <-> map length a = map length b.
Proof.
  unfold same_shape. revert b.
  induction a as [|r a IH]; intros [|s b]; simpl; split; try discriminate; trivial.
  - intros H. apply andb_true_iff in H as [Hr H]. apply Nat.eqb_eq in Hr.
    f_equal; [exact Hr | now apply IH].
  - intros H. injection H as Hr H. apply andb_true_iff. split.
    + now apply Nat.eqb_eq.
    + now apply IH.
Qed.

Lemma same_shape_sym {A B} (a : matrix A) (b : matrix B) :
  same_shape a b = true -> same_shape b a = true.
Proof. rewrite !same_shape_lengths. auto. Qed.

Lemma same_shape_trans {A B C} (a : matrix A) (b : matrix B) (c : matrix C) :
  same_shape a b = true -> same_shape b c = true -> same_shape a c = true.
Proof. rewrite !same_shape_lengths. congruence. Qed.

Lemma same_shape_zip_with {A B C} (f : A -> B -> C) (a : matrix A) (b : matrix B) :
  same_shape a b = true -> same_shape (zip_with (zip_with f) a b) a = true.
Proof.
  unfold same_shape. revert b.
  induction a as [|r a IH]; intros [|s b]; simpl; try discriminate; trivial.
  intros H. apply andb_true_iff in H as [Hr H]. apply Nat.eqb_eq in Hr.
  apply andb_true_iff. split; [|now apply IH].
  apply Nat.eqb_eq. rewrite length_zip_with. lia.
Qed.


Lemma get_rowwise {A B} (g : list A -> A -> B) (d : matrix A) (i j : nat) :
  get (map (fun row => map (g row) row) d) i j
  = match d !! i with
    | Some row => option_map (g row) (row !! j)
    | None => None
    end.
Proof.
  unfold get. rewrite lookup_map. destruct (d !! i) as [row|]; simpl; trivial.
  apply lookup_map.
Qed.

Lemma get_masked (d : matrix float64) (m : matrix bool) (i j : nat) :
  get (masked d m) i j
  = match get d i j, get m i j with
    | Some v, Some b => Some (if b then v else nan)
    | _, _ => None
    end.
Proof.
  change (masked d m)
    with (zip_with (zip_with (fun v (b : bool) => if b then v else nan)) d m).
  apply get_zip_with.
Qed.

Lemma get_row {A} (d : matrix A) (i j : nat) (v : A) :
  get d i j = Some v -> exists row, d !! i = Some row /\ row !! j = Some v.
Proof. unfold get. destruct (d !! i) as [row|]; [eauto|discriminate]. Qed.

Lemma masked_row_agree (r r' : list float64) (mr : list bool) :
  length r = length mr -> length r' = length mr ->
  (forall j, mr !! j = Some true -> r !! j = r' !! j) ->
  masked_row r mr = masked_row r' mr.
Proof.
  unfold masked_row. revert r r'.
  induction mr as [|b mr IH]; intros [|x r] [|x' r']; simpl; try discriminate; trivial.
  intros Hr Hr' H. injection Hr as Hr. injection Hr' as Hr'. f_equal.
  - destruct b; trivial. specialize (H 0%nat eq_refl). now injection H.
  - apply IH; trivial. intros j. apply (H (S j)).
Qed.

Lemma masked_agree (d d' : matrix float64) (m : matrix bool) :
  same_shape d m = true -> same_shape d' m = true ->
  (forall i j, get m i j = Some true -> get d i j = get d' i j) ->
  masked d m = masked d' m.
Proof.
  unfold masked, same_shape. revert d d'.
  induction m as [|mr m IH]; intros [|r d] [|r' d']; simpl; try discriminate; trivial.
  intros Hd Hd' H.
  apply andb_true_iff in Hd as [Hr Hd]. apply andb_true_iff in Hd' as [Hr' Hd'].
  apply Nat.eqb_eq in Hr, Hr'. f_equal.
  - apply masked_row_agree; trivial. intros j. apply (H 0%nat j).
  - apply IH; trivial. intros i j. apply (H (S i) j).
Qed.

(** Two runs that realise the same outcome end the same way. *)
Lemma realises_same_outcome (c1 c2 : st heap loc) (h1 h2 : heap) (r : result ndarray) :
  realises c1 h1 r -> realises c2 h2 r -> same_outcome (c1 h1) (c2 h2).
Proof.
  intros [t1 H1] [t2 H2]. unfold same_outcome.
  destruct (c1 h1) as [[l1|e1] h1'], (c2 h2) as [[l2|e2] h2'].
  - destruct H1 as [_ [v [E Hv]]], H2 as [_ [v2 [E2 Hv2]]].
    rewrite E in E2. injection E2 as <-. rewrite Hv, Hv2. split; [eauto|trivial].
  - destruct H1 as [_ [v [E Hv]]], H2 as [_ E2]. congruence.
  - destruct H1 as [_ E], H2 as [_ [v2 [E2 Hv2]]]. congruence.
  - destruct H1 as [_ E], H2 as [_ E2]. congruence.
Qed.

Section Masking.
Context {ext : Externals}.





End Masking.

Section PercentileValues.
Context {ext : Externals}.

(** X9: on a panel with at least one column, an entity whose factor
    value is NaN never passes a PercentileFilter, even inside the mask:
    NaN fails both comparisons of the band test. *)
Theorem PercentileFilter_rejects_nan (inputs : list pyobj) (lo hi : float64)
    (arrays : list loc) (mask : loc) (h : heap) (x : ndarray) (vs : list ndarray)
    (m : matrix bool) :
  holds h arrays (x :: vs) ->
  h !! mask = Some (BoolArray m) ->
  same_shape (as_float x) m = true ->
  zero_columns (BoolArray m) = false ->
  exists l h' res,
    compute_from_arrays (PercentileFilter inputs lo hi) arrays mask h = (Ok l, h')
    /\ h' !! l = Some (BoolArray res)
    /\ forall i j, get (as_float x) i j = Some nan -> get res i j = Some false.
Proof.
  intros Hvs Hm Hshape Hcols.
  pose proof (PercentileFilter_run inputs lo hi arrays mask h _ _ Hvs Hm) as Hrun.
  rewrite (PercentileFilter_array_result inputs lo hi x m vs Hshape Hcols) in Hrun.
  apply realises_Ok in Hrun as (l & t & Hrun & Hl).
  eexists l, (h ++ t), _. split; [exact Hrun|]. split; [exact Hl|].
  intros i j Hnan.
  destruct (same_shape_get m (as_float x) i j nan (same_shape_sym _ _ Hshape) Hnan)
    as [b Hb].
  assert (Hmasked : get (masked (as_float x) m) i j = Some nan).
  { rewrite get_masked, Hnan, Hb. now destruct b. }
  destruct (get_row _ _ _ _ Hmasked) as (row & Hrow & Hj).
  rewrite get_rowwise, Hrow, Hj. cbn [option_map].
  now rewrite float_le_nan_r.
Qed.

(** X10: the values a factor holds outside the mask have no influence:
    two factor arrays that agree wherever the mask is true give the same
    PercentileFilter outcome, bounds included. *)
Theorem PercentileFilter_ignores_masked_out_values (inputs : list pyobj)
    (lo hi : float64) (arrays arrays2 : list loc) (mask mask2 : loc) (h h2 : heap)
    (d d' : matrix float64) (vs vs2 : list ndarray) (m : matrix bool) :
  holds h arrays (FloatArray d :: vs) ->
  holds h2 arrays2 (FloatArray d' :: vs2) ->
  h !! mask = Some (BoolArray m) ->
  h2 !! mask2 = Some (BoolArray m) ->
  same_shape d m = true ->
  same_shape d' m = true ->
  (forall i j, get m i j = Some true -> get d i j = get d' i j) ->
  same_outcome (compute_from_arrays (PercentileFilter inputs lo hi) arrays mask h)
               (compute_from_arrays (PercentileFilter inputs lo hi) arrays2 mask2 h2).
Proof.
  intros Hvs Hvs2 Hm Hm2 Hshape Hshape' Hagree.
  pose proof (PercentileFilter_run inputs lo hi arrays mask h _ _ Hvs Hm) as Hrun.
  pose proof (PercentileFilter_run inputs lo hi arrays2 mask2 h2 _ _ Hvs2 Hm2) as Hrun2.
  destruct (zero_columns (BoolArray m)) eqn:Hcols.
  { rewrite (PercentileFilter_array_result_no_columns inputs lo hi _ _ vs Hcols)
      in Hrun.
    rewrite (PercentileFilter_array_result_no_columns inputs lo hi _ _ vs2 Hcols)
      in Hrun2.
    exact (realises_same_outcome _ _ _ _ _ Hrun Hrun2). }
  rewrite (PercentileFilter_array_result inputs lo hi (FloatArray d) m vs Hshape Hcols)
    in Hrun.
  rewrite (PercentileFilter_array_result inputs lo hi (FloatArray d') m vs2 Hshape'
             Hcols) in Hrun2.
  cbn [as_float] in Hrun, Hrun2.
  rewrite <- (masked_agree d d' m Hshape Hshape' Hagree) in Hrun2.
  exact (realises_same_outcome _ _ _ _ _ Hrun Hrun2).
Qed.

(** X11: two filters in sequence before a third narrow the mask to the
    conjunction of the mask and both results: the nested sequence ends as
    the last filter does when run under that conjunction. *)
Theorem SequencedFilter_chain (xs ys : list pyobj) (then_ : pyobj)
    (arrays : list loc) (mask : loc) (h : heap) (f1 f2 m : matrix bool)
    (vs : list ndarray) :
  defined_here then_ = true ->
  holds h arrays (BoolArray f1 :: BoolArray f2 :: vs) ->
  h !! mask = Some (BoolArray m) ->
  same_shape m f1 = true ->
  same_shape m f2 = true ->
  let narrowed := zip_with (zip_with andb) (zip_with (zip_with andb) m f1) f2 in
  (forall i j,
     get narrowed i j
     = match get m i j, get f1 i j, get f2 i j with
       | Some a, Some b, Some c => Some (a && b && c)
       | _, _, _ => None
       end)
  /\ forall (h2 : heap) (arrays2 : list loc) (mask2 : loc),
       holds h2 arrays2 vs ->
       h2 !! mask2 = Some (BoolArray narrowed) ->
       same_outcome
         (compute_from_arrays (SequencedFilter xs (SequencedFilter ys then_))
                              arrays mask h)
         (compute_from_arrays then_ arrays2 mask2 h2).
Proof.
  intros Hdef Hvs Hm H1 H2 narrowed. split.
  - intros i j. unfold narrowed. rewrite !get_zip_with.
    destruct (get m i j), (get f1 i j), (get f2 i j); reflexivity.
  - intros h2 arrays2 mask2 Hvs2 Hm2.
    pose proof (compute_from_arrays_run (SequencedFilter xs (SequencedFilter ys then_))
                  Hdef arrays mask h _ _ Hvs Hm) as Hrun.
    pose proof (compute_from_arrays_run then_ Hdef arrays2 mask2 h2 _ _ Hvs2 Hm2)
      as Hrun2.
    cbn [array_result np_and] in Hrun.
    rewrite (broadcast_same_shape andb m f1 H1) in Hrun.
    cbn [result_map result_bind np_and] in Hrun.
    rewrite (broadcast_same_shape andb _ f2
               (same_shape_trans _ _ _ (same_shape_zip_with andb m f1 H1) H2)) in Hrun.
    cbn [result_map result_bind] in Hrun.
    exact (realises_same_outcome _ _ _ _ _ Hrun Hrun2).
Qed.

(** X12: [f.then(g)] on two Filters builds the sequence of [f] and [g],
    and computing it is computing [g] on the arrays after the first, under
    a new mask narrowed by the first array. *)
Theorem Filter_then_computes (f g : pyobj) (cache : term_cache)
    (arrays : list loc) (mask first_result : loc) (h : heap) (m fr : matrix bool) :
  isinstance f Filter = true ->
  isinstance g Filter = true ->
  arrays !! 0%nat = Some first_result ->
  h !! first_result = Some (BoolArray fr) ->
  h !! mask = Some (BoolArray m) ->
  same_shape m fr = true ->
  exists node cache',
    Filter_then f g cache = (Ok node, cache')
    /\ getattr_inputs node = result_map (cons f) (getattr_inputs g)
    /\ compute_from_arrays node arrays mask h
       = compute_from_arrays g (drop 1 arrays) (length h)
           (h ++ [BoolArray (zip_with (zip_with andb) m fr)]).
Proof.
  intros Hf Hg Harr Hfr Hm Hshape.
  assert (Hin : exists g_inputs, getattr_inputs g = Ok g_inputs).
  { destruct g; simpl in *; try discriminate; eauto. }
  destruct Hin as [g_inputs Hin].
  unfold Filter_then, SequencedFilter_new. rewrite bind_lift, Hin.
  unfold SequencedFilter_init, concat_tuples. simpl concat. rewrite app_nil_r.
  assert (Hv : SequencedFilter_validate (SequencedFilter (f :: g_inputs) g) = Ok tt).
  { unfold SequencedFilter_validate.
    change ((f :: g_inputs) !! 0%nat) with (Some f). cbv iota beta.
    now rewrite Hf, Hg. }
  destruct (Term_new_valid _ SequencedFilter_validate cache Hv) as [cache' [H _]].
  exists (SequencedFilter (f :: g_inputs) g), cache'.
  split; [exact H|]. split; [reflexivity|].
  cbn [compute_from_arrays].
  unfold SequencedFilter_compute_from_arrays, getitem. rewrite Harr, bind_ret.
  unfold and_. rewrite (bind_binop _ _ _ _ _ _ _ Hm Hfr).
  cbn [np_and]. now rewrite (broadcast_same_shape andb m fr Hshape).
Qed.

(** X13: with no input array at all, a SequencedFilter (whatever its
    second filter) and a PercentileFilter raise the IndexError of
    [arrays[0]] at once: nothing is allocated and the second filter is
    not called. *)
Theorem compute_from_arrays_no_arrays (inputs : list pyobj) (then_ : pyobj)
    (lo hi : float64) (mask : loc) (h : heap) :
  compute_from_arrays (SequencedFilter inputs then_) [] mask h
  = (Raise (IndexError "tuple index out of range"), h)
  /\ compute_from_arrays (PercentileFilter inputs lo hi) [] mask h
     = (Raise (IndexError "tuple index out of range"), h).
Proof. split; reflexivity. Qed.

(** X14: an exception of the numexpr evaluation leaves
    [NumExprFilter.compute_from_arrays] as it is: the mask is not applied
    and no array is allocated. *)
Theorem NumExprFilter_compute_from_arrays_raises (expr : string)
    (inputs : list pyobj) (arrays : list loc) (mask : loc) (h : heap)
    (vs : list ndarray) (m : ndarray) (e : exn) :
  holds h arrays vs ->
  h !! mask = Some m ->
  numexpr_evaluate expr vs (ndarray_shape m) = Raise e ->
  compute_from_arrays (NumExprFilter expr inputs) arrays mask h = (Raise e, h).
Proof.
  intros Hvs Hm He. cbn [compute_from_arrays].
  unfold NumExprFilter_compute_from_arrays, NumericalExpression_compute_from_arrays.
  unfold bind at 1 2. rewrite (load_all_holds _ _ _ Hvs).
  now rewrite (bind_load _ _ _ _ Hm), bind_lift, He.
Qed.

End PercentileValues.

(** X15: [concat_tuples] keeps every element of every tuple, in order:
    the element at position [k] of a tuple stands in the result at [k]
    past the total length of the tuples before it; the length of the
    result is the sum of the lengths, it distributes over appending
    argument lists, and an element is in the result exactly when it is in
    one of the tuples. *)
Theorem concat_tuples_keeps_all {A} (ts1 ts2 : list (list A)) (x : A) :
  length (concat_tuples ts1) = list_sum (map length ts1)
  /\ concat_tuples (ts1 ++ ts2) = concat_tuples ts1 ++ concat_tuples ts2
  /\ (In x (concat_tuples ts1) <-> exists t, In t ts1 /\ In x t)
  /\ (forall (t : list A) (k : nat),
        t !! k = Some x ->
        concat_tuples (ts1 ++ t :: ts2) !! (length (concat_tuples ts1) + k)%nat
        = Some x).
Proof.
  unfold concat_tuples. split; [|split; [|split]].
  - induction ts1 as [|t ts IH]; simpl; trivial. now rewrite length_app, IH.
  - apply concat_app.
  - apply in_concat.
  - intros t k Hk. rewrite concat_app. simpl concat.
    rewrite lookup_app_r by lia.
    replace (length (concat ts1) + k - length (concat ts1))%nat with k by lia.
    now apply lookup_app_l_Some.
Qed.

(** ** The further properties on concrete inputs *)



Lemma PercentileFilter_rejects_nan_witness :
  exists l h' res,
    compute_from_arrays (ext := Sample.ext)
      (PercentileFilter [Sample.factor] (float_of_Z 20) (float_of_Z 80))
      [0%nat] 1%nat
      [FloatArray [[float_of_Z 10; nan; float_of_Z 30]];
       BoolArray [[true; true; true]]] = (Ok l, h')
    /\ h' !! l = Some (BoolArray res)
    /\ forall i j,
         get [[float_of_Z 10; nan; float_of_Z 30]] i j = Some nan ->
         get res i j = Some false.
Proof.
  apply (PercentileFilter_rejects_nan (ext := Sample.ext)
           [Sample.factor] (float_of_Z 20) (float_of_Z 80) [0%nat] 1%nat
           [FloatArray [[float_of_Z 10; nan; float_of_Z 30]];
            BoolArray [[true; true; true]]]
           (FloatArray [[float_of_Z 10; nan; float_of_Z 30]]) []
           [[true; true; true]]).
  - repeat constructor.
  - reflexivity.
  - reflexivity.
  - reflexivity.
Defined.

Lemma PercentileFilter_ignores_masked_out_values_witness :
  same_outcome
    (compute_from_arrays (ext := Sample.ext)
       (PercentileFilter [Sample.factor] (float_of_Z 20) (float_of_Z 80))
       [3%nat] 5%nat Sample.store0)
    (compute_from_arrays (ext := Sample.ext)
       (PercentileFilter [Sample.factor] (float_of_Z 20) (float_of_Z 80))
       [1%nat] 0%nat
       [BoolArray [[true; true; false; true; true]];
        FloatArray [Sample.floats [10; 20; 999; 40; 50]%Z]]).
Proof.
  apply (PercentileFilter_ignores_masked_out_values (ext := Sample.ext)
           [Sample.factor] (float_of_Z 20) (float_of_Z 80)
           [3%nat] [1%nat] 5%nat 0%nat Sample.store0
           [BoolArray [[true; true; false; true; true]];
            FloatArray [Sample.floats [10; 20; 999; 40; 50]%Z]]
           [Sample.floats [10; 20; 30; 40; 50]%Z]
           [Sample.floats [10; 20; 999; 40; 50]%Z] [] []
           [[true; true; false; true; true]]).
  - repeat constructor.
  - repeat constructor.
  - reflexivity.
  - reflexivity.
  - reflexivity.
  - reflexivity.
  - intros [|i] j; [|discriminate].
    destruct j as [|[|[|[|[|j]]]]]; try discriminate; reflexivity.
Defined.

Lemma SequencedFilter_chain_witness :
  same_outcome
    (compute_from_arrays (ext := Sample.ext)
       (SequencedFilter [Sample.f; Sample.f; Sample.g]
          (SequencedFilter [Sample.f; Sample.g] (NumExprFilter "x_0 & x_0" [Sample.g])))
       [0; 2; 1]%nat 2%nat Sample.store0)
    (compute_from_arrays (ext := Sample.ext) (NumExprFilter "x_0 & x_0" [Sample.g])
       [1%nat] 2%nat Sample.store0).
Proof.
  destruct (SequencedFilter_chain (ext := Sample.ext)
              [Sample.f; Sample.f; Sample.g] [Sample.f; Sample.g]
              (NumExprFilter "x_0 & x_0" [Sample.g])
              [0; 2; 1]%nat 2%nat Sample.store0
              [[true; false; true]] [[true; false; true]] [[true; false; true]]
              [BoolArray [[true; true; false]]]) as [_ H].
  - reflexivity.
  - repeat constructor.
  - reflexivity.
  - reflexivity.
  - reflexivity.
  - apply (H Sample.store0 [1%nat] 2%nat).
    + repeat constructor.
    + reflexivity.
Defined.

Lemma Filter_then_computes_witness :
  exists node cache',
    Filter_then Sample.f (NumExprFilter "x_0 & x_0" [Sample.g]) [] = (Ok node, cache')
    /\ getattr_inputs node
       = result_map (cons Sample.f)
           (getattr_inputs (NumExprFilter "x_0 & x_0" [Sample.g]))
    /\ compute_from_arrays (ext := Sample.ext) node [0; 1]%nat 2%nat Sample.store0
       = compute_from_arrays (ext := Sample.ext) (NumExprFilter "x_0 & x_0" [Sample.g])
           (drop 1 [0; 1]%nat) (length Sample.store0)
           (Sample.store0
              ++ [BoolArray (zip_with (zip_with andb) [[true; false; true]]
                                                      [[true; false; true]])]).
Proof.
  apply (Filter_then_computes (ext := Sample.ext)
           Sample.f (NumExprFilter "x_0 & x_0" [Sample.g]) []
           [0; 1]%nat 2%nat 0%nat Sample.store0
           [[true; false; true]] [[true; false; true]]); reflexivity.
Defined.

Lemma NumExprFilter_compute_from_arrays_raises_witness :
  compute_from_arrays (ext := Sample.ext) (NumExprFilter "x_0 ^ x_1" [Sample.f; Sample.g])
    [0; 1]%nat 2%nat Sample.store0
  = (Raise (ValueError "unsupported expression"), Sample.store0).
Proof.
  apply (NumExprFilter_compute_from_arrays_raises (ext := Sample.ext)
           "x_0 ^ x_1" [Sample.f; Sample.g] [0; 1]%nat 2%nat Sample.store0
           [BoolArray [[true; false; true]]; BoolArray [[true; true; false]]]
           (BoolArray [[true; false; true]])).
  - repeat constructor.
  - reflexivity.
  - reflexivity.
Defined.
